(** * COPERT hot emission factors: a model of [copert.py]

    The class [Copert] of [copert.py] computes hot emission factors of
    road vehicles from the tables and formulae of the EMEP/EEA emission
    inventory guidebook.  This file embeds its tables, its formula
    library and its four resolvers ([HEFGasolinePassengerCar],
    [HEFDieselPassengerCar], [HEFLightCommercialVehicle],
    [HEFHeavyDutyVehicle]) together with [Emission], and proves what
    the specification says about them.

    Numbers are IEEE binary64 values, as Python's [float] and numpy's
    [float64] are; the integer attributes of the class (pollutants,
    vehicle classes, engine types, ...) are enumerations with their
    integer code.  A call either returns a Python value (a float, or
    [None] when the body ends without a [return]) or raises. *)

From Stdlib Require Import ZArith List Bool String Floats Lia.
Import ListNotations.

Set Warnings "-inexact-float".

Local Open Scope float_scope.

(** ** Exceptions and results *)

(** The exceptions a call can end with: the [Exception] the code raises
    itself, with its message, and the ones the interpreter raises for a
    missing dictionary key, an index out of range, a failed unpacking,
    conversion or search, an overflowing conversion, an operand of the
    wrong type, and calls nested beyond the allowed depth. *)
Inductive exn : Type :=
| Exception (msg : string)
| KeyError
| IndexError
| ValueError
| OverflowError
| TypeError
| RuntimeError.

Inductive result (A : Type) : Type :=
| Return (a : A)
| Raise (e : exn).

Arguments Return {A} a.
Arguments Raise {A} e.

Definition bind {A B : Type} (r : result A) (k : A -> result B) : result B :=
  match r with
  | Return a => k a
  | Raise e => Raise e
  end.

Notation "x <- r ;; k" := (bind r (fun x => k))
  (at level 61, r at next level, right associativity).
Notation "' p <- r ;; k" := (bind r (fun x => let p := x in k))
  (at level 61, p pattern, r at next level, right associativity).

(** A Python value as the resolvers return it: a float or [None]. *)
Definition value : Type := option float.

Definition return_float (x : float) : result value := Return (Some x).
Definition return_None : result value := Return None.

(** ** The integer attributes of the class *)

(** Vehicle classes of emission standard, passenger cars. *)
Inductive copert_class_t : Type :=
| class_PRE_ECE
| class_ECE_15_00_or_01
| class_ECE_15_02
| class_ECE_15_03
| class_ECE_15_04
| class_Improved_Conventional
| class_Open_loop
| class_Euro_1
| class_Euro_2
| class_Euro_3
| class_Euro_3_GDI
| class_Euro_4
| class_Euro_5
| class_Euro_6
| class_Euro_6c.

Definition class_code (c : copert_class_t) : Z :=
  match c with
  | class_PRE_ECE => 0
  | class_ECE_15_00_or_01 => 1
  | class_ECE_15_02 => 2
  | class_ECE_15_03 => 3
  | class_ECE_15_04 => 4
  | class_Improved_Conventional => 5
  | class_Open_loop => 6
  | class_Euro_1 => 7
  | class_Euro_2 => 8
  | class_Euro_3 => 9
  | class_Euro_3_GDI => 10
  | class_Euro_4 => 11
  | class_Euro_5 => 12
  | class_Euro_6 => 13
  | class_Euro_6c => 14
  end%Z.

Definition name_class_euro (c : copert_class_t) : string :=
  match c with
  | class_PRE_ECE => "PRE_ECE"
  | class_ECE_15_00_or_01 => "ECE_15_00_or_01"
  | class_ECE_15_02 => "ECE_15_02"
  | class_ECE_15_03 => "ECE_15_03"
  | class_ECE_15_04 => "ECE_15_04"
  | class_Improved_Conventional => "Improved_Conventional"
  | class_Open_loop => "Open_loop"
  | class_Euro_1 => "Euro_1"
  | class_Euro_2 => "Euro_2"
  | class_Euro_3 => "Euro_3"
  | class_Euro_3_GDI => "Euro_3_GDI"
  | class_Euro_4 => "Euro_4"
  | class_Euro_5 => "Euro_5"
  | class_Euro_6 => "Euro_6"
  | class_Euro_6c => "Euro_6c"
  end%string.

(** Vehicle classes of emission standard, heavy duty vehicles and buses. *)
Inductive hdv_copert_class_t : Type :=
| class_hdv_Conventional
| class_hdv_Euro_I
| class_hdv_Euro_II
| class_hdv_Euro_III
| class_hdv_Euro_IV
| class_hdv_Euro_V_EGR
| class_hdv_Euro_V_SCR
| class_hdv_Euro_VI.

Definition class_hdv_code (c : hdv_copert_class_t) : Z :=
  match c with
  | class_hdv_Conventional => 0
  | class_hdv_Euro_I => 1
  | class_hdv_Euro_II => 2
  | class_hdv_Euro_III => 3
  | class_hdv_Euro_IV => 4
  | class_hdv_Euro_V_EGR => 5
  | class_hdv_Euro_V_SCR => 6
  | class_hdv_Euro_VI => 7
  end%Z.

Inductive engine_type_t : Type :=
| engine_type_gasoline
| engine_type_diesel
| engine_type_LPG
| engine_type_two_stroke_gasoline
| engine_type_hybrids
| engine_type_E85
| engine_type_CNG
| engine_type_tow_stroke_less_50
| engine_type_tow_stroke_more_50
| engine_type_four_stroke_less_50
| engine_type_four_stroke_50_250
| engine_type_four_stroke_250_750
| engine_type_four_stroke_more_750.

Definition engine_type_code (e : engine_type_t) : Z :=
  match e with
  | engine_type_gasoline => 0
  | engine_type_diesel => 1
  | engine_type_LPG => 2
  | engine_type_two_stroke_gasoline => 3
  | engine_type_hybrids => 4
  | engine_type_E85 => 5
  | engine_type_CNG => 6
  | engine_type_tow_stroke_less_50 => 7
  | engine_type_tow_stroke_more_50 => 8
  | engine_type_four_stroke_less_50 => 9
  | engine_type_four_stroke_50_250 => 10
  | engine_type_four_stroke_250_750 => 11
  | engine_type_four_stroke_more_750 => 12
  end%Z.

Definition engine_capacity_less_1_4 : Z := 0.
Definition engine_capacity_from_1_4_to_2 : Z := 1.
Definition engine_capacity_more_2 : Z := 2.

Inductive vehicle_type_t : Type :=
| vehicle_type_passenger_car
| vehicle_type_light_commercial_vehicule
| vehicle_type_heavy_duty_vehicle
| vehicle_type_bus
| vehicle_type_moped
| vehicle_type_motocycle.

(** Types of heavy duty vehicles, buses and coaches. *)
Inductive hdv_type_t : Type :=
| hdv_type_gasoline_3_5
| hdv_type_rigid_7_5
| hdv_type_rigid_7_5_12
| hdv_type_rigid_12_14
| hdv_type_rigid_14_20
| hdv_type_rigid_20_26
| hdv_type_rigid_26_28
| hdv_type_rigid_28_32
| hdv_type_rigid_32
| hdv_type_articulated_14_20
| hdv_type_articulated_20_28
| hdv_type_articulated_28_34
| hdv_type_articulated_34_40
| hdv_type_articulated_40_50
| hdv_type_articulated_50_60
| bus_type_urban_15
| bus_type_urban_15_18
| bus_type_urban_18
| bus_type_coach_standard_less_18
| bus_type_coach_articulated_more_18.

Definition hdv_type_code (t : hdv_type_t) : Z :=
  match t with
  | hdv_type_gasoline_3_5 => 0
  | hdv_type_rigid_7_5 => 1
  | hdv_type_rigid_7_5_12 => 2
  | hdv_type_rigid_12_14 => 3
  | hdv_type_rigid_14_20 => 4
  | hdv_type_rigid_20_26 => 5
  | hdv_type_rigid_26_28 => 6
  | hdv_type_rigid_28_32 => 7
  | hdv_type_rigid_32 => 8
  | hdv_type_articulated_14_20 => 9
  | hdv_type_articulated_20_28 => 10
  | hdv_type_articulated_28_34 => 11
  | hdv_type_articulated_34_40 => 12
  | hdv_type_articulated_40_50 => 13
  | hdv_type_articulated_50_60 => 14
  | bus_type_urban_15 => 15
  | bus_type_urban_15_18 => 16
  | bus_type_urban_18 => 17
  | bus_type_coach_standard_less_18 => 18
  | bus_type_coach_articulated_more_18 => 19
  end%Z.

(** Loading standards for heavy duty vehicles. *)
Inductive hdv_load_t : Type :=
| hdv_load_0
| hdv_load_50
| hdv_load_100.

Definition hdv_load_code (l : hdv_load_t) : Z :=
  match l with
  | hdv_load_0 => 0
  | hdv_load_50 => 1
  | hdv_load_100 => 2
  end%Z.

(** Slope of the road. *)
Inductive slope_t : Type :=
| slope_0
| slope_negative_6
| slope_negative_4
| slope_negative_2
| slope_2
| slope_4
| slope_6.

Definition slope_code (s : slope_t) : Z :=
  match s with
  | slope_0 => 0
  | slope_negative_6 => 1
  | slope_negative_4 => 2
  | slope_negative_2 => 3
  | slope_2 => 4
  | slope_4 => 5
  | slope_6 => 6
  end%Z.

Inductive pollutant_t : Type :=
| pollutant_CO
| pollutant_HC
| pollutant_NOx
| pollutant_PM
| pollutant_FC
| pollutant_VOC.

Definition pollutant_code (p : pollutant_t) : Z :=
  match p with
  | pollutant_CO => 0
  | pollutant_HC => 1
  | pollutant_NOx => 2
  | pollutant_PM => 3
  | pollutant_FC => 4
  | pollutant_VOC => 5
  end%Z.

Definition name_pollutant (p : pollutant_t) : string :=
  match p with
  | pollutant_CO => "CO"
  | pollutant_HC => "HC"
  | pollutant_NOx => "NOx"
  | pollutant_PM => "PM"
  | pollutant_FC => "FC"
  | pollutant_VOC => "VOC"
  end%string.

(** General range of average speed for the road types, in km/h. *)
Definition speed_type_urban : float := 60.
Definition speed_type_rural : float := 90.
Definition speed_type_highway : float := 130.

(** ** Python and numpy operations *)

(** [max(a, b)] and [min(a, b)] keep their first argument unless the
    second one compares strictly greater (smaller); with a NaN the
    comparison is false. *)
Definition py_max (a b : float) : float := if a <? b then b else a.
Definition py_min (a b : float) : float := if b <? a then b else a.

(** [l[i]] on a list or along one axis of an array: a negative index
    counts from the end, an index out of range raises [IndexError]. *)
Definition getitem {A : Type} (l : list A) (i : Z) : result A :=
  let n := Z.of_nat (List.length l) in
  let j := if (i <? 0)%Z then (i + n)%Z else i in
  if (j <? 0)%Z then Raise IndexError
  else match nth_error l (Z.to_nat j) with
       | Some a => Return a
       | None => Raise IndexError
       end.

(** [l.index(x)]: the first position of [x], [ValueError] without one. *)
Fixpoint list_index {A : Type} (eqb : A -> A -> bool) (x : A) (l : list A)
  : result Z :=
  match l with
  | [] => Raise ValueError
  | y :: l' => if eqb y x then Return 0%Z
               else (i <- list_index eqb x l' ;; Return (i + 1)%Z)
  end.

(** [int(x)] on a float: truncation toward zero; [ValueError] on a NaN,
    [OverflowError] on an infinity. *)
Definition int_of_float (x : float) : result Z :=
  match Prim2SF x with
  | S754_zero _ => Return 0%Z
  | S754_nan => Raise ValueError
  | S754_infinity _ => Raise OverflowError
  | S754_finite s m e =>
      let magnitude := match e with
                       | Z0 => Zpos m
                       | Zpos p => Z.shiftl (Zpos m) (Zpos p)
                       | Zneg p => Z.shiftr (Zpos m) (Zpos p)
                       end in
      Return (if s then (- magnitude)%Z else magnitude)
  end.

Definition class_eqb (c1 c2 : copert_class_t) : bool :=
  (class_code c1 =? class_code c2)%Z.

(** The C library behind [math.exp], [math.log] and the power operator
    [**] on floats.  They are parameters of the model: total functions
    on binary64 values.  The arithmetic exceptions Python raises on top
    of them (overflow, domain error) are not modelled. *)
Class Libm : Type := {
  math_exp : float -> float;
  math_log : float -> float;
  pow : float -> float -> float
}.

(** ** The formula library *)

Section Formulae.

Context {libm : Libm}.

Local Notation "x ** y" := (pow x y) (at level 30, right associativity).

(** Basic generic functions. *)
Definition constant (a : float) : float := a.
Definition linear (a b x : float) : float := a * x + b.
Definition quadratic (a b c x : float) : float := a * x ** 2 + b * x + c.
Definition power (a b x : float) : float := a * x ** b.
Definition exponential (a b x : float) : float := a * math_exp (b * x).
Definition logarithm (a b x : float) : float := a + b * math_log x.

(** Generic functions for the hot emission factors of gasoline and
    diesel passenger cars. *)
Definition EF_25 (a b c d e f V : float) : float :=
  (a + c * V + e * V ** 2) / (1 + b * V + d * V ** 2).
Definition EF_26 (a b c d e f V : float) : float :=
  a * V ** 5 + b * V ** 4 + c * V ** 3 + d * V ** 2 + e * V + f.
Definition EF_27 (a b c d e f V : float) : float :=
  (a + c * V + e * V ** 2 + f / V) / (1 + b * V + d * V ** 2).
Definition EF_28 (a b c d e f V : float) : float :=
  a * V ** b + c * V ** d.
Definition EF_30 (a b c d e f V : float) : float :=
  (a + c * V + e * V ** 2) / (1 + b * V + d * V ** 2) + f / V.
Definition EF_31 (a b c d e f V : float) : float :=
  a + (b / (1 + math_exp (((-1) * c) + d * math_log V + e * V))).

(** Generic functions for passenger cars and light commercial vehicles. *)
Definition ldv_equation : Type :=
  float -> float -> float -> float -> float -> float -> float -> float ->
  float -> float -> float.

Definition Eq_1 : ldv_equation := fun a b c d e f g h rf V =>
  ((a + c * V + e * V ** 2 + f / V) / (1 + b * V + d * V ** 2))
  * (1 - rf) + 0 * (g + h).
Definition Eq_2 : ldv_equation := fun a b c d e f g h rf V =>
  ((a * V ** 2) + (b * V) + c + (d * math_log V)
   + (e * math_exp (f * V)) + (g * (V ** h))) * (1 - rf).
Definition Eq_3 : ldv_equation := fun a b c d e f g h rf V =>
  (a + b * (1 + math_exp ((- (V + c)) / d)) ** (-1)) * (1 - rf)
  + 0 * (e + f + g + h).
Definition Eq_4 : ldv_equation := fun a b c d e f g h rf V =>
  (a * V ** b) * (1 - rf) + 0 * (c + d + e + f + g + h).
Definition Eq_5 : ldv_equation := fun a b c d e f g h rf V =>
  (((a * V ** 2) + (b * V) + c + (d * math_log V)
    + (e * math_exp (f * V)) + (g * (V ** h))) * (1 - rf)) / 1000.
Definition Eq_6 : ldv_equation := fun a b c d e f g h rf V =>
  (a + b / (1 + math_exp (((-1) * c + d * math_log V) + e * V))) * (1 - rf)
  + 0 * (f + g + h).
Definition Eq_7 : ldv_equation := fun a b c d e f g h rf V =>
  ((a * V ** 3 + b * V ** 2) + c * V + d) * (1 - rf) + 0 * (e + f + g + h).
Definition Eq_8 : ldv_equation := fun a b c d e f g h rf V =>
  ((a * b ** V * V ** c)) * (1 - rf) + 0 * (d + e + f + g + h).
Definition Eq_9 : ldv_equation := fun a b c d e f g h rf V =>
  ((a * V ** b) + c * V ** d) * (1 - rf) + 0 * (d + e + f + g + h).
Definition Eq_10 : ldv_equation := fun a b c d e f g h rf V =>
  (1 / (a + b * V ** c)) * (1 - rf) + 0 * (d + e + f + g + h).
Definition Eq_11 : ldv_equation := fun a b c d e f g h rf V =>
  ((a + b * V) ** ((-1) / c)) * (1 - rf) + 0 * (d + e + f + g + h).
Definition Eq_12 : ldv_equation := fun a b c d e f g h rf V =>
  (1 / (c * V ** 2 + b * V + a)) * (1 - rf) + 0 * (d + e + f + g + h).
Definition Eq_13 : ldv_equation := fun a b c d e f g h rf V =>
  math_exp ((a + b / V) + (c * math_log V)) * (1 - rf)
  + 0 * (d + e + f + g + h).
Definition Eq_14 : ldv_equation := fun a b c d e f g h rf V =>
  (e + a * math_exp ((-1) * b * V)
   + c * math_exp ((-1) * d * V)) * (1 - rf) + 0 * (f + g + h).
Definition Eq_15 : ldv_equation := fun a b c d e f g h rf V =>
  (a * V ** 2 + b * V + c) * (1 - rf) + 0 * (d + e + f + g + h).
Definition Eq_16 : ldv_equation := fun a b c d e f g h rf V =>
  (a - b * math_exp ((-1) * c * V ** d)) * (1 - rf) + 0 * (e + f + g + h).
Definition Eq_17 : ldv_equation := fun a b c d e f g h rf V =>
  (a * V ** 5 + b * V ** 4 + c * V ** 3 + d * V ** 2 + e * V + f)
  * (1 - rf) + 0 * (g + h).

Definition list_equation_ldv : list ldv_equation :=
  [Eq_1; Eq_2; Eq_3; Eq_4; Eq_5; Eq_6; Eq_7; Eq_8;
   Eq_9; Eq_10; Eq_11; Eq_12; Eq_13; Eq_14; Eq_15;
   Eq_16; Eq_17].

(** Generic functions for heavy duty vehicles, buses and coaches. *)
Definition hdv_equation : Type :=
  float -> float -> float -> float -> float -> float -> float -> float ->
  float.

Definition Eq_hdv_0 : hdv_equation := fun a b c d e f g x =>
  (a * (b ** x)) * (x ** c) + 0 * (d + e + f + g).
Definition Eq_hdv_1 : hdv_equation := fun a b c d e f g x =>
  (a * (x ** b)) + (c * (x ** d)) + 0 * (e + f + g).
Definition Eq_hdv_2 : hdv_equation := fun a b c d e f g x =>
  (a + (b * x)) ** ((-1) / c) + 0 * (d + e + f + g).
Definition Eq_hdv_3 : hdv_equation := fun a b c d e f g x =>
  (a + (b * x))
  + (((c - b) * (1 - math_exp (((-1) * d) * x))) / d)
  + 0 * (e + f + g).
Definition Eq_hdv_4 : hdv_equation := fun a b c d e f g x =>
  (e + (a * math_exp (((-1) * b) * x)))
  + (c * math_exp (((-1) * d) * x))
  + 0 * (f + g).
Definition Eq_hdv_5 : hdv_equation := fun a b c d e f g x =>
  1 / (((c * (x ** 2)) + (b * x)) + a) + 0 * (d + e + f + g).
Definition Eq_hdv_6 : hdv_equation := fun a b c d e f g x =>
  1 / (a + (b * (x ** c))) + 0 * (d + e + f + g).
Definition Eq_hdv_7 : hdv_equation := fun a b c d e f g x =>
  1 / (a + (b * x)) + 0 * (c + d + e + f + g).
Definition Eq_hdv_8 : hdv_equation := fun a b c d e f g x =>
  a - (b * math_exp (((-1) * c) * (x ** d))) + 0 * (e + f + g).
Definition Eq_hdv_9 : hdv_equation := fun a b c d e f g x =>
  a / (1 + (b * math_exp (((-1) * c) * x))) + 0 * (d + e + f + g).
Definition Eq_hdv_10 : hdv_equation := fun a b c d e f g x =>
  a + (b / (1 + math_exp ((((-1) * c) + (d * math_log x)) + (e * x))))
  + 0 * (f + g).
Definition Eq_hdv_11 : hdv_equation := fun a b c d e f g x =>
  c + (a * math_exp (((-1) * b) * x)) + 0 * (d + e + f + g).
Definition Eq_hdv_12 : hdv_equation := fun a b c d e f g x =>
  c + (a * math_exp (b * x)) + 0 * (d + e + f + g).
Definition Eq_hdv_13 : hdv_equation := fun a b c d e f g x =>
  math_exp ((a + (b / x)) + (c * math_log x))
  + 0 * (d + e + f + g).
Definition Eq_hdv_14 : hdv_equation := fun a b c d e f g x =>
  ((a * (x ** 3)) + (b * (x ** 2)) + (c * x)) + d + 0 * (e + f + g).
Definition Eq_hdv_15 : hdv_equation := fun a b c d e f g x =>
  ((a * (x ** 2)) + (b * x)) + c + 0 * (d + e + f + g).

Definition list_equation_hdv : list hdv_equation :=
  [Eq_hdv_0; Eq_hdv_1; Eq_hdv_2; Eq_hdv_3; Eq_hdv_4;
   Eq_hdv_5; Eq_hdv_6; Eq_hdv_7; Eq_hdv_8; Eq_hdv_9;
   Eq_hdv_10; Eq_hdv_11; Eq_hdv_12; Eq_hdv_13;
   Eq_hdv_14; Eq_hdv_15].

End Formulae.

(** ** The data tables of the class *)

Definition coefficients6 : Type :=
  (float * float * float * float * float * float)%type.

(** Emission factor coefficients for gasoline passenger cars, of shape
    (4, 7, 6): pollutant (CO, HC, NOx, PM), class (Euro 1 to Euro 6c). *)
Definition efc_gasoline_passenger_car : list (list coefficients6) :=
  [
   [(1.12e1, 1.29e-1, (-1.02e-1), (-9.47e-4), 6.77e-4, 0.0);
    (6.05e1, 3.50e0, 1.52e-1, (-2.52e-2), (-1.68e-4), 0.0);
    (7.17e1, 3.54e1, 1.14e1, (-2.48e-1), 0.0, 0.0);
    (1.36e-1, (-1.41e-2), (-8.91e-4), 4.99e-5, 0.0, 0.0);
    ((-1.35e-10), 7.86e-8, (-1.22e-5), 7.75e-4, (-1.97e-2), 3.98e-1);
    ((-6.5e-11), 4.78e-8, (-7.79e-6), 5.06e-4, (-1.38e-2), 3.54e-1);
    ((-4.42e-11), 4.04e-8, (-6.73e-6), 4.34e-4, (-1.17e-2), 3.38e-1)];
   [(1.35, 1.78e-1, (-6.77e-3), (-1.27e-3), 0.0, 0.0);
    (4.11e6, 1.66e6, (-1.45e4), (-1.03e4), 0.0, 0.0);
    (5.57e-2, 3.65e-2, (-1.1e-3), (-1.88e-4), 1.25e-5, 0.0);
    (1.18e-2, 0.0, (-3.47e-5), 0.0, 8.84e-7, 0.0);
    (2.87e-16, 6.43, 2.17e-2, (-3.42e-1), 0.0, 0.0);
    ((-1.73e-12), 7.45e-10, (-9.59e-8), 5.32e-6, (-1.61e-4), 8.98e-3);
    (4.44e-13, (-1.8e-10), 5.08e-8, (-5.31e-6), 1.91e-4, 5.3e-3)];
   [(5.25e-1, 0.0, (-1e-2), 0.0, 9.36e-5, 0.0);
    (2.84e-1, (-2.34e-2), (-8.69e-3), 4.43e-4, 1.14e-4, 0.0);
    (9.29e-2, (-1.22e-2), (-1.49e-3), 3.97e-5, 6.53e-6, 0.0);
    (1.06e-1, 0.0, (-1.58e-3), 0.0, 7.1e-6, 0.0);
    (1.89e-1, 1.57, 8.15e-2, 2.73e-2, (-2.49e-4), (-2.68e-1));
    (4.74e-1, 5.62, 3.41e-1, 8.38e-2, (-1.52e-3), (-1.19));
    (9.99e14, 1.89e16, 1.31e15, 2.9e14, (-6.34e12), (-4.03e15))];
   [(nan, nan, nan, nan, nan, nan);
    (nan, nan, nan, nan, nan, nan);
    (nan, nan, nan, nan, nan, nan);
    (nan, nan, nan, nan, nan, nan);
    (1.44e-13, 1.16e-10, (-3.37e-8), 3.11e-6, (-1.25e-4), 3.3e-3);
    (2.31e-13, 1.26e-11, (-1.1e-8), 1.23e-6, (-6.29e-5), 2.72e-3);
    (2.65e-13, (-4.07e-11), 1.55e-9, 1.43e-7, (-2.5e-5), 2.45e-3)]
  ]
  .

(** Emission factor coefficients for diesel passenger cars, of shape
    (4, 7, 3, 6): pollutant (CO, HC, NOx, PM), class (Euro 1 to Euro 6c),
    engine capacity (< 1.4 l, 1.4 - 2.0 l, > 2.0 l).  A line of NaN
    stands for a category without formula. *)
Definition efc_diesel_passenger_car : list (list (list coefficients6)) :=
  [
   [
    [(nan, nan, nan, nan, nan, nan);
     (9.96e-1, 0.0, (-1.88e-2), 0.0, 1.09e-4, 0.0);
     (9.96e-1, 0.0, (-1.88e-2), 0.0, 1.09e-4, 0.0)];
    [(nan, nan, nan, nan, nan, nan);
     (9.00e-1, 0.0, (-1.74e-2), 0.0, 8.77e-5, 0.0);
     (9.00e-1, 0.0, (-1.74e-2), 0.0, 8.77e-5, 0.0)];
    [(nan, nan, nan, nan, nan, nan);
     (1.69e-1, 0.0, (-2.92e-3), 0.0, 1.25e-5, 1.1);
     (1.69e-1, 0.0, (-2.92e-3), 0.0, 1.25e-5, 1.1)];
    [(nan, nan, nan, nan, nan, nan);
     (nan, nan, nan, nan, nan, nan);
     (nan, nan, nan, nan, nan, nan)];
    [((-8.66e13), 1.76e14, 2.47e13, 3.18e12, (-1.94e11), 8.33e13);
     ((-8.66e13), 1.76e14, 2.47e13, 3.18e12, (-1.94e11), 8.33e13);
     ((-8.66e13), 1.76e14, 2.47e13, 3.18e12, (-1.94e11), 8.33e13)];
    [((-3.58e-11), 1.23e-8, (-1.49e-6), 8.58e-5, (-2.94e-3), 1.03e-1);
     ((-3.58e-11), 1.23e-8, (-1.49e-6), 8.58e-5, (-2.94e-3), 1.03e-1);
     ((-3.58e-11), 1.23e-8, (-1.49e-6), 8.58e-5, (-2.94e-3), 1.03e-1)];
    [((-3.58e-11), 1.23e-8, (-1.49e-6), 8.58e-5, (-2.94e-3), 1.03e-1);
     ((-3.58e-11), 1.23e-8, (-1.49e-6), 8.58e-5, (-2.94e-3), 1.03e-1);
     ((-3.58e-11), 1.23e-8, (-1.49e-6), 8.58e-5, (-2.94e-3), 1.03e-1)]
   ];
   [
    [(nan, nan, nan, nan, nan, nan);
     (1.42e-1, 1.38e-2, (-2.01e-3), (-1.90e-5), 1.15e-5, 0.0);
     (1.59e-1, 0.0, (-2.46e-3), 0.0, 1.21e-5, 0.0)];
    [(nan, nan, nan, nan, nan, nan);
     (1.61e-1, 7.46e-2, (-1.21e-3), (-3.35e-4), 3.63e-6, 0.0);
     (5.01e4, 3.80e4, 8.03e3, 1.15e3, (-2.66e1), 0.0)];
    [(nan, nan, nan, nan, nan, nan);
     (9.65e-2, 1.03e-1, (-2.38e-4), (-7.24e-5), 1.93e-6, 0.0);
     (9.12e-2, 0.0, (-1.68e-3), 0.0, 8.94e-6, 0.0)];
    [(3.47e-2, 2.69e-2, (-6.41e-4), 1.59e-3, 1.12e-5, 0.0);
     (3.47e-2, 2.69e-2, (-6.41e-4), 1.59e-3, 1.12e-5, 0.0);
     (3.47e-2, 2.69e-2, (-6.41e-4), 1.59e-3, 1.12e-5, 0.0)];
    [(1.04e32, 4.60e33, 1.53e32, 2.92e32, (-3.83e28), 1.96e32);
     (1.04e32, 4.60e33, 1.53e32, 2.92e32, (-3.83e28), 1.96e32);
     (1.04e32, 4.60e33, 1.53e32, 2.92e32, (-3.83e28), 1.96e32)];
    [(1.04e32, 4.60e33, 1.53e32, 2.92e32, (-3.83e28), 1.96e32);
     (1.04e32, 4.60e33, 1.53e32, 2.92e32, (-3.83e28), 1.96e32);
     (1.04e32, 4.60e33, 1.53e32, 2.92e32, (-3.83e28), 1.96e32)];
    [(1.04e32, 4.60e33, 1.53e32, 2.92e32, (-3.83e28), 1.96e32);
     (1.04e32, 4.60e33, 1.53e32, 2.92e32, (-3.83e28), 1.96e32);
     (1.04e32, 4.60e33, 1.53e32, 2.92e32, (-3.83e28), 1.96e32)]
   ];
   [
    [(nan, nan, nan, nan, nan, nan);
     (3.1, 1.41e-1, (-6.18e-3), (-5.03e-4), 4.22e-4, 0.0);
     (3.1, 1.41e-1, (-6.18e-3), (-5.03e-4), 4.22e-4, 0.0)];
    [(nan, nan, nan, nan, nan, nan);
     (2.4, 7.67e-2, (-1.16e-2), (-5.0e-4), 1.2e-4, 0.0);
     (2.4, 7.67e-2, (-1.16e-2), (-5.0e-4), 1.2e-4, 0.0)];
    [(nan, nan, nan, nan, nan, nan);
     (2.82, 1.98e-1, 6.69e-2, (-1.43e-3), (-4.63e-4), 0.0);
     (2.82, 1.98e-1, 6.69e-2, (-1.43e-3), (-4.63e-4), 0.0)];
    [(1.11, 0.0, (-2.02e-2), 0.0, 1.48e-4, 0.0);
     (1.11, 0.0, (-2.02e-2), 0.0, 1.48e-4, 0.0);
     (1.11, 0.0, (-2.02e-2), 0.0, 1.48e-4, 0.0)];
    [(9.46e-1, 4.26e-3, (-1.14e-2), (-5.15e-5), 6.67e-5, 1.92);
     (9.46e-1, 4.26e-3, (-1.14e-2), (-5.15e-5), 6.67e-5, 1.92);
     (9.46e-1, 4.26e-3, (-1.14e-2), (-5.15e-5), 6.67e-5, 1.92)];
    [(4.36e-1, 1.0e-2, (-5.39e-3), (-1.02e-4), 2.90e-5, (-4.61e-1));
     (4.36e-1, 1.0e-2, (-5.39e-3), (-1.02e-4), 2.90e-5, (-4.61e-1));
     (4.36e-1, 1.0e-2, (-5.39e-3), (-1.02e-4), 2.90e-5, (-4.61e-1))];
    [(2.33e-1, 1.00e-2, (-2.88e-3), (-1.02e-4), 1.55e-5, (-2.46e-1));
     (2.33e-1, 1.00e-2, (-2.88e-3), (-1.02e-4), 1.55e-5, (-2.46e-1));
     (2.33e-1, 1.00e-2, (-2.88e-3), (-1.02e-4), 1.55e-5, (-2.46e-1))]
   ];
   [
    [(nan, nan, nan, nan, nan, nan);
     (1.14e-1, 0.0, (-2.33e-3), 0.0, 2.26e-5, 0.0);
     (1.14e-1, 0.0, (-2.33e-3), 0.0, 2.26e-5, 0.0)];
    [(nan, nan, nan, nan, nan, nan);
     (8.66e-2, 0.0, (-1.42e-3), 0.0, 1.06e-5, 0.0);
     (8.66e-2, 0.0, (-1.42e-3), 0.0, 1.06e-5, 0.0)];
    [(nan, nan, nan, nan, nan, nan);
     (5.15e-2, 0.0, (-8.8e-4), 0.0, 8.12e-6, 0.0);
     (5.15e-2, 0.0, (-8.8e-4), 0.0, 8.12e-6, 0.0)];
    [(4.50e-2, 0.0, (-5.39e-4), 0.0, 3.48e-6, 0.0);
     (4.50e-2, 0.0, (-5.39e-4), 0.0, 3.48e-6, 0.0);
     (4.50e-2, 0.0, (-5.39e-4), 0.0, 3.48e-6, 0.0)];
    [(1.17e-3, 1.06e1, (-6.48), 5.67e-1, 1.23e-2, 0.0);
     (1.17e-3, 1.06e1, (-6.48), 5.67e-1, 1.23e-2, 0.0);
     (1.17e-3, 1.06e1, (-6.48), 5.67e-1, 1.23e-2, 0.0)];
    [((-1.21e18), 1.63e20, 1.79e18, 2.89e19, 1.17e16, 4.09e18);
     ((-1.21e18), 1.63e20, 1.79e18, 2.89e19, 1.17e16, 4.09e18);
     ((-1.21e18), 1.63e20, 1.79e18, 2.89e19, 1.17e16, 4.09e18)];
    [((-1.21e18), 1.63e20, 1.79e18, 2.89e19, 1.17e16, 4.09e18);
     ((-1.21e18), 1.63e20, 1.79e18, 2.89e19, 1.17e16, 4.09e18);
     ((-1.21e18), 1.63e20, 1.79e18, 2.89e19, 1.17e16, 4.09e18)]
   ]
  ]
  .

(** Parameters for light commercial vehicles of emission standard
    Conventional and Euro 1, of shape (2, 5, 2, 5): engine type, pollutant
    (CO, NOx, VOC, PM, FC), class, then [Vmin, Vmax, a, b, c]. *)
Definition ldv_parameter_pre_euro_1
  : list (list (list (float * float * float * float * float))) :=
  [
   [
    [(10.0, 110.0, 0.01104, (-1.5132), 57.789);
     (10.0, 120.0, 0.0037, (-0.5215), 19.127)];
    [(10.0, 110.0, 0.0, 0.0179, 1.9547);
     (10.0, 120.0, 7.55e-5, (-0.009), 0.666)];
    [(10.0, 110.0, 67.7e-5, (-0.117), 5.4734);
     (10.0, 120.0, 5.77e-5, (-0.01047), 0.54734)];
    [(nan, nan, nan, nan, nan);
     (nan, nan, nan, nan, nan)];
    [(10.0, 110.0, 0.0167, (-2.649), 161.51);
     (10.0, 120.0, 0.0195, (-3.09), 188.85)]
   ];
   [
    [(10.0, 110.0, 20e-5, (-0.0256), 1.8281);
     (10.0, 110.0, 22.3e-5, (-0.026), 1.076)];
    [(10.0, 110.0, 81.6e-5, (-0.1189), 5.1234);
     (10.0, 110.0, 24.1e-5, (-0.03181), 2.0247)];
    [(10.0, 110.0, 1.75e-5, (-0.00284), 0.2162);
     (10.0, 110.0, 1.75e-5, (-0.00284), 0.2162)];
    [(10.0, 110.0, 1.25e-5, (-0.000577), 0.288);
     (10.0, 110.0, 4.5e-5, (-0.004885), 0.1932)];
    [(10.0, 110.0, 0.02113, (-2.65), 148.91);
     (10.0, 110.0, 0.0198, (-2.506), 137.42)]
   ]
  ]
  .

(** Emission reduction percentage of Euro 2 to Euro 4 light commercial
    vehicles, applied to vehicles of Euro 1, of shape (2, 3, 4): engine
    type, class (Euro 2, 3, 4), pollutant (CO, NOx, VOC, PM). *)
Definition ldv_reduction_percentage : list (list (list float)) :=
  [
   [[39.0; 66.0; 76.0; nan];
    [48.0; 79.0; 86.0; nan];
    [72.0; 90.0; 94.0; nan]];
   [[0.0; 0.0; 0.0; 0.0];
    [18.0; 16.0; 38.0; 33.0];
    [35.0; 32.0; 77.0; 65.0]]
  ].

(** ** The messages of the exceptions the class raises *)

Local Open Scope string_scope.

Definition msg_speed_out_of_range : string :=
  "There is no formula to calculate hot emission factors when the speed is lower than 10 km/h or higher than 130 km/h.".

Definition msg_capacity_lower_0_8 : string :=
  "There is no formula to calculate hot emission factor of gasoline passenger cars when the engine capacity is lower than 0.8 l.".

Definition msg_capacity_Improved_Conventional : string :=
  "There is no formula to calculate hot emission factor of gasoline passenger cars when the engine capacity is lower than 0.8 l or higher than 2.0 l for vehicle technology of Improved Conventional cars.".

Definition msg_capacity_Open_loop : string :=
  "There is no formula to calculate hot emission factor of gasoline passenger cars when the engine capacity is lower than 0.8 l or higher than 2.0 l for vehicle technology of Open loop cars.".

Definition msg_diesel_Euro_3_GDI : string :=
  "Class Euro_3_GDI has no emission factor formula in case of diesel cars.".

Definition msg_diesel_capacity_lower_1_4
  (pollutant : pollutant_t) (copert_class : copert_class_t) : string :=
  "There is no formula to calculate hot emission factors of "
  ++ name_pollutant pollutant
  ++ ", for diesel passenger cars of copert class "
  ++ name_class_euro copert_class
  ++ ", with an engine capacity lower than 1.4 l.".

Definition msg_ldv_gasoline_PM_HC : string :=
  "There is no formula to calculate hot emission factors for PM and HC when engine type is gasoline, with emission standard of Conventional or Euro 1.".

Definition msg_ldv_diesel_HC : string :=
  "There is no formula to calculate hot emission factors for HC when engine type is diesel, with emission standard is Conventional or Euro 1.".

Definition msg_ldv_Euro_2_to_Euro_4 : string :=
  "There is no formula to calculate hot emission factors for the requested pollutant when emission standard is between Euro 2 and Euro 4.".

Definition msg_hdv_no_formula : string :=
  "There is no formula available for the  requested vehicle technology or/and pollutant.".

Definition msg_only_gasoline_and_diesel : string :=
  "Only emission factors for gasoline and diesel vehicles are available.".

Definition msg_only_passenger_cars : string :=
  "Only emission factors for passenger cars are available.".

Local Close Scope string_scope.

(** ** The object built by the constructor *)

(** A line of [ldv_parameter]: [a, b, c, d, e, f, g, h, rf, Vmin, Vmax,
    N_eq]. *)
Definition ldv_row : Type :=
  (float * float * float * float * float * float * float * float
   * float * float * float * float)%type.

(** A line of [hdv_parameter]: [a, b, c, d, e, f, g, Vmin, Vmax, N_eq]. *)
Definition hdv_row : Type :=
  (float * float * float * float * float * float * float
   * float * float * float)%type.

(** The two arrays the constructor fills from the parameter files:
    [ldv_parameter] of shape (2, 3, 5, 12) and [hdv_parameter] of shape
    (2, 20, 8, 5, 3, 7, 10), read here up to their last axis.  The files
    are not part of the class; a line they do not give is a line of
    NaN. *)
Record Copert : Type := {
  ldv_parameter : Z -> Z -> Z -> ldv_row;
  hdv_parameter : Z -> Z -> Z -> Z -> Z -> Z -> hdv_row
}.

(** An integer index [i] along an axis of length [n] of an array. *)
Definition axis (n i : Z) : result Z :=
  let j := if (i <? 0)%Z then (i + n)%Z else i in
  if ((0 <=? j) && (j <? n))%Z then Return j else Raise IndexError.

(** [self.index_pollutant]. *)
Definition index_pollutant (p : pollutant_t) : result Z :=
  match p with
  | pollutant_CO => Return 0%Z
  | pollutant_NOx => Return 1%Z
  | pollutant_HC => Return 2%Z
  | pollutant_PM => Return 3%Z
  | pollutant_FC => Return 4%Z
  | pollutant_VOC => Raise KeyError
  end.

(** [self.index_copert_class_ldv]; the value is [None] up to Euro 4. *)
Definition index_copert_class_ldv (c : copert_class_t) : result (option Z) :=
  match c with
  | class_Improved_Conventional => Return None
  | class_Euro_1 => Return None
  | class_Euro_2 => Return None
  | class_Euro_3 => Return None
  | class_Euro_3_GDI => Return None
  | class_Euro_4 => Return None
  | class_Euro_5 => Return (Some 0%Z)
  | class_Euro_6 => Return (Some 1%Z)
  | class_Euro_6c => Return (Some 2%Z)
  | _ => Raise KeyError
  end.

(** [self.index_vehicle_type]. *)
Definition index_vehicle_type (v : vehicle_type_t) : option Z :=
  match v with
  | vehicle_type_passenger_car => None
  | vehicle_type_light_commercial_vehicule => None
  | vehicle_type_heavy_duty_vehicle => Some 0%Z
  | vehicle_type_bus => Some 1%Z
  | vehicle_type_moped => None
  | vehicle_type_motocycle => None
  end.

(** [self.ldv_parameter[engine_type, i_copert_class, i_pollutant]],
    unpacked into twelve names.  An index [None] adds an axis: the
    integers then index the axes before theirs and, when in range, leave
    an array of one line of lines, whose unpacking fails. *)
Definition ldv_parameter_getitem (self : Copert)
  (i_engine_type : Z) (i_copert_class : option Z) (i_pollutant : Z)
  : result ldv_row :=
  match i_copert_class with
  | Some i_class =>
      i <- axis 2 i_engine_type ;;
      j <- axis 3 i_class ;;
      k <- axis 5 i_pollutant ;;
      Return (ldv_parameter self i j k)
  | None =>
      _ <- axis 2 i_engine_type ;;
      _ <- axis 3 i_pollutant ;;
      Raise ValueError
  end.

(** [self.hdv_parameter[i_hdv_or_bus, hdv_type, i_hdv_copert_class,
    i_pollutant, i_load, i_slope]], unpacked into ten names. *)
Definition hdv_parameter_getitem (self : Copert)
  (i_hdv_or_bus : option Z)
  (i_hdv_type i_hdv_copert_class i_pollutant i_load i_slope : Z)
  : result hdv_row :=
  match i_hdv_or_bus with
  | Some i_vehicle =>
      i <- axis 2 i_vehicle ;;
      j <- axis 20 i_hdv_type ;;
      k <- axis 8 i_hdv_copert_class ;;
      l <- axis 5 i_pollutant ;;
      m <- axis 3 i_load ;;
      n <- axis 7 i_slope ;;
      Return (hdv_parameter self i j k l m n)
  | None =>
      _ <- axis 2 i_hdv_type ;;
      _ <- axis 20 i_hdv_copert_class ;;
      _ <- axis 8 i_pollutant ;;
      _ <- axis 5 i_load ;;
      _ <- axis 3 i_slope ;;
      Raise ValueError
  end.

(** The product of a float and a returned value: [None] is no operand. *)
Definition mul_value (v : value) (x : float) : result value :=
  match v with
  | Some y => return_float (y * x)
  | None => Raise TypeError
  end.

Definition rmul_value (x : float) (v : value) : result value :=
  match v with
  | Some y => return_float (x * y)
  | None => Raise TypeError
  end.

(** ** The resolvers *)

Section Resolvers.

Context {libm : Libm}.

Local Notation "x ** y" := (pow x y) (at level 30, right associativity).

(** Global indexes of EURO classes, ordered by appearance in the
    guidebook. *)
Definition global_class_index : list copert_class_t :=
  [class_Euro_1; class_Euro_2; class_Euro_3; class_Euro_4;
   class_Euro_5; class_Euro_6; class_Euro_6c].

(** Hot emission factor for gasoline passenger cars. *)
Definition HEFGasolinePassengerCar (pollutant : pollutant_t) (speed : float)
  (copert_class : copert_class_t) (engine_capacity : float) : result value :=
  let V := speed in
  if V =? 0 then return_float 0
  else if (V <? 10) || (130 <? V) then
    Raise (Exception msg_speed_out_of_range)
  else
    match copert_class with
    | class_PRE_ECE =>
        if engine_capacity <? 0.8 then
          Raise (Exception msg_capacity_lower_0_8)
        else
          match pollutant with
          | pollutant_CO =>
              if V <? 100 then return_float (power 281 (-0.63) V)
              else return_float (linear 0.112 4.32 V)
          | pollutant_VOC =>
              if V <? 100 then return_float (power 30.34 (-0.693) V)
              else return_float (constant 1.247)
          | pollutant_NOx =>
              if engine_capacity <? 1.4 then
                return_float (quadratic (-0.00014) 0.0225 1.173 V)
              else if engine_capacity <? 2.0 then
                return_float (quadratic (-0.00004) 0.0217 1.360 V)
              else
                return_float (quadratic 0.0001 0.03 1.5 V)
          | _ => return_None
          end
    | class_ECE_15_00_or_01 =>
        if engine_capacity <? 0.8 then
          Raise (Exception msg_capacity_lower_0_8)
        else
          match pollutant with
          | pollutant_CO =>
              if V <? 50 then return_float (power 313 (-0.76) V)
              else return_float (quadratic 0.0032 (-0.406) 27.22 V)
          | pollutant_VOC =>
              if V <? 50 then return_float (power 24.99 (-0.704) V)
              else return_float (power 4.85 (-0.318) V)
          | pollutant_NOx =>
              if engine_capacity <? 1.4 then
                return_float (quadratic (-0.00014) 0.0225 1.173 V)
              else if engine_capacity <? 2.0 then
                return_float (quadratic (-0.00004) 0.0217 1.360 V)
              else
                return_float (quadratic 0.0001 0.03 1.5 V)
          | _ => return_None
          end
    | class_ECE_15_02 =>
        if engine_capacity <? 0.8 then
          Raise (Exception msg_capacity_lower_0_8)
        else
          match pollutant with
          | pollutant_CO =>
              if V <? 60 then return_float (power 300 (-0.797) V)
              else return_float (quadratic 0.0026 (-0.44) 26.26 V)
          | pollutant_VOC =>
              if V <? 60 then return_float (power 25.75 (-0.714) V)
              else return_float (quadratic 0.00009 (-0.019) 1.95 V)
          | pollutant_NOx =>
              if engine_capacity <? 1.4 then
                return_float (quadratic 0.00018 (-0.0037) 1.479 V)
              else if engine_capacity <? 2.0 then
                return_float (quadratic 0.0002 (-0.0038) 1.663 V)
              else
                return_float (quadratic 0.00022 (-0.0039) 1.87 V)
          | _ => return_None
          end
    | class_ECE_15_03 =>
        if engine_capacity <? 0.8 then
          Raise (Exception msg_capacity_lower_0_8)
        else
          match pollutant with
          | pollutant_CO =>
              if V <? 20 then return_float (logarithm 161.36 (-45.62) V)
              else return_float (quadratic 0.00377 (-0.68) 37.92 V)
          | pollutant_VOC =>
              if V <? 60 then return_float (power 25.75 (-0.714) V)
              else return_float (quadratic 0.00009 (-0.019) 1.95 V)
          | pollutant_NOx =>
              if engine_capacity <? 1.4 then
                return_float (quadratic 0.00025 (-0.0084) 1.616 V)
              else if engine_capacity <? 2.0 then
                return_float (exponential 1.29 0.0099 V)
              else
                return_float (quadratic 0.000294 (-0.0112) 2.784 V)
          | _ => return_None
          end
    | class_ECE_15_04 =>
        if engine_capacity <? 0.8 then
          Raise (Exception msg_capacity_lower_0_8)
        else
          match pollutant with
          | pollutant_CO =>
              if V <? 60 then return_float (power 260.788 (-0.91) V)
              else return_float (quadratic 0.001163 (-0.22) 14.653 V)
          | pollutant_VOC =>
              if V <? 60 then return_float (power 19.079 (-0.693) V)
              else return_float (quadratic 0.000179 (-0.037) 2.608 V)
          | pollutant_NOx =>
              if engine_capacity <? 1.4 then
                return_float (quadratic 0.000097 0.003 1.432 V)
              else if engine_capacity <? 2.0 then
                return_float (quadratic 0.000074 0.013 1.484 V)
              else
                return_float (quadratic 0.000266 (-0.014) 2.427 V)
          | _ => return_None
          end
    | class_Improved_Conventional =>
        if (engine_capacity <? 0.8) || (2.0 <? engine_capacity) then
          Raise (Exception msg_capacity_Improved_Conventional)
        else
          match pollutant with
          | pollutant_CO =>
              if engine_capacity <? 1.4 then
                return_float (quadratic 0.002478 (-0.294) 14.577 V)
              else
                return_float (quadratic 0.000957 (-0.151) 8.273 V)
          | pollutant_VOC =>
              if engine_capacity <? 1.4 then
                return_float (quadratic 0.000201 (-0.034) 2.189 V)
              else
                return_float (quadratic 0.000214 (-0.034) 1.999 V)
          | pollutant_NOx =>
              if engine_capacity <? 1.4 then
                return_float (logarithm (-0.926) 0.719 V)
              else
                return_float (quadratic 0.000247 0.0014 1.387 V)
          | _ => return_None
          end
    | class_Open_loop =>
        if (engine_capacity <? 0.8) || (2.0 <? engine_capacity) then
          Raise (Exception msg_capacity_Open_loop)
        else
          match pollutant with
          | pollutant_CO =>
              if engine_capacity <? 1.4 then
                return_float (quadratic 0.002825 (-0.377) 17.882 V)
              else
                return_float (quadratic 0.002029 (-0.230) 9.446 V)
          | pollutant_VOC =>
              if engine_capacity <? 1.4 then
                return_float (quadratic 0.000256 (-0.0423) 2.185 V)
              else
                return_float (quadratic 0.000099 (-0.016) 0.808 V)
          | pollutant_NOx =>
              if engine_capacity <? 1.4 then
                return_float (logarithm (-0.921) 0.616 V)
              else
                return_float (logarithm (-0.761) 0.515 V)
          | _ => return_None
          end
    | _ =>
        (* What follows the test on PM, reached when no branch of it
           returns. *)
        let from_table : result value :=
          copert_index <- list_index class_eqb copert_class
                            global_class_index ;;
          '(a, b, c, d, e, f) <-
            (t <- getitem efc_gasoline_passenger_car
                    (pollutant_code pollutant) ;;
             getitem t copert_index) ;;
          if (class_code copert_class <=? class_code class_Euro_4)%Z then
            return_float (EF_25 a b c d e f V)
          else
            match pollutant with
            | pollutant_CO | pollutant_PM =>
                return_float (EF_26 a b c d e f V)
            | pollutant_NOx => return_float (EF_27 a b c d e f V)
            | pollutant_HC =>
                match copert_class with
                | class_Euro_5 => return_float (EF_28 a b c d e f V)
                | _ => return_float (EF_26 a b c d e f V)
                end
            | _ => return_None
            end in
        match pollutant with
        | pollutant_PM =>
            if (class_code copert_class <=? class_code class_Euro_2)%Z then
              if V <=? speed_type_urban then return_float (constant 3.22e-3)
              else if V <=? speed_type_rural then
                return_float (constant 1.84e-3)
              else return_float (constant 1.90e-3)
            else if class_eqb copert_class class_Euro_3_GDI then
              if V <=? speed_type_urban then return_float (constant 6.6e-3)
              else if V <=? speed_type_rural then
                return_float (constant 2.96e-3)
              else return_float (constant 6.95e-3)
            else if (class_code copert_class <=? class_code class_Euro_4)%Z
            then
              if V <=? speed_type_urban then return_float (constant 1.28e-3)
              else if V <=? speed_type_rural then
                return_float (constant 8.36e-4)
              else return_float (constant 1.19e-3)
            else from_table
        | _ => from_table
        end
    end.

(** Hot emission factor for diesel passenger cars. *)
Definition HEFDieselPassengerCar (pollutant : pollutant_t) (speed : float)
  (copert_class : copert_class_t) (engine_capacity : float) : result value :=
  if class_eqb copert_class class_Euro_3_GDI then
    Raise (Exception msg_diesel_Euro_3_GDI)
  else
    let V := speed in
    if V =? 0 then return_float 0
    else if (V <? 10) || (130 <? V) then
      Raise (Exception msg_speed_out_of_range)
    else if negb (existsb (class_eqb copert_class) global_class_index) then
      (* Pre-Euro *)
      match pollutant with
      | pollutant_CO => return_float (power 5.41301 (-0.574) V)
      | pollutant_NOx =>
          if engine_capacity <=? 2.0 then
            return_float (quadratic 0.000101 (-0.014) 0.918 V)
          else
            return_float (quadratic 0.000133 (-0.018) 1.331 V)
      | pollutant_VOC => return_float (power 4.61 (-0.937) V)
      | pollutant_PM => return_float (quadratic 0.000058 (-0.0086) 0.45 V)
      | pollutant_FC => return_float (quadratic 0.014 (-2.084) 118.489 V)
      | pollutant_HC => return_None
      end
    else
      copert_index <- list_index class_eqb copert_class global_class_index ;;
      let efc (capacity : Z) : result coefficients6 :=
        t <- getitem efc_diesel_passenger_car (pollutant_code pollutant) ;;
        t' <- getitem t copert_index ;;
        getitem t' capacity in
      '(a, b, c, d, e, f) <-
        (if engine_capacity <? 1.4 then
           '(a, b, c, d, e, f) <- efc engine_capacity_less_1_4 ;;
           if is_nan a
              && (class_code copert_class <=? class_code class_Euro_3)%Z
           then
             Raise (Exception
                      (msg_diesel_capacity_lower_1_4 pollutant copert_class))
           else Return (a, b, c, d, e, f)
         else if engine_capacity <? 2.0 then
           efc engine_capacity_from_1_4_to_2
         else
           efc engine_capacity_more_2) ;;
      if (class_code copert_class <=? class_code class_Euro_4)%Z then
        match pollutant, copert_class with
        | pollutant_CO, class_Euro_4 =>
            return_float
              (17.5e-3 + 86.42
               * (1 + math_exp ((- (V + 117.67)) / (-21.99))) ** (-1))
        | _, _ => return_float (EF_30 a b c d e f V)
        end
      else if class_eqb copert_class class_Euro_5 then
        match pollutant with
        | pollutant_PM => return_float (EF_31 a b c d e f V)
        | _ => return_float (EF_27 a b c d e f V)
        end
      else
        match pollutant with
        | pollutant_CO => return_float (EF_26 a b c d e f V)
        | _ => return_float (EF_27 a b c d e f V)
        end.

(** [index_pollutant_pre_euro_4], the dictionary local to
    [HEFLightCommercialVehicle]. *)
Definition index_pollutant_pre_euro_4 (p : pollutant_t) : result Z :=
  match p with
  | pollutant_CO => Return 0%Z
  | pollutant_NOx => Return 1%Z
  | pollutant_VOC => Return 2%Z
  | pollutant_PM => Return 3%Z
  | pollutant_FC => Return 4%Z
  | pollutant_HC => Raise KeyError
  end.

(** Hot emission factor for light commercial vehicles.  The function
    calls itself for the classes Euro 2 to Euro 4; [depth] bounds the
    nesting of the calls. *)
Fixpoint HEFLightCommercialVehicle_depth (depth : nat) (self : Copert)
  (pollutant : pollutant_t) (speed : float) (engine_type : engine_type_t)
  (copert_class : copert_class_t) {struct depth} : result value :=
  match depth with
  | O => Raise RuntimeError
  | S depth' =>
    let V := speed in
    if V =? 0 then return_float 0
    else if (class_code copert_class <=? class_code class_Euro_1)%Z then
      i_copert_class <-
        match copert_class with
        | class_Improved_Conventional => Return 0%Z
        | class_Euro_1 => Return 1%Z
        | _ => Raise KeyError
        end ;;
      i_pollutant <- index_pollutant_pre_euro_4 pollutant ;;
      match engine_type, pollutant with
      | engine_type_gasoline, (pollutant_PM | pollutant_HC) =>
          Raise (Exception msg_ldv_gasoline_PM_HC)
      | engine_type_diesel, pollutant_HC =>
          Raise (Exception msg_ldv_diesel_HC)
      | _, _ =>
          '(Vmin, Vmax, a, b, c) <-
            (t <- getitem ldv_parameter_pre_euro_1
                    (engine_type_code engine_type) ;;
             t' <- getitem t i_pollutant ;;
             getitem t' i_copert_class) ;;
          let V := py_min (py_max Vmin speed) Vmax in
          return_float (quadratic a b c V)
      end
    else if ((class_code class_Euro_2 <=? class_code copert_class)
             && (class_code copert_class <=? class_code class_Euro_4))%Z then
      emission_factor_euro_1 <-
        HEFLightCommercialVehicle_depth depth' self pollutant V engine_type
          class_Euro_1 ;;
      match pollutant with
      | pollutant_HC | pollutant_FC =>
          Raise (Exception msg_ldv_Euro_2_to_Euro_4)
      | _ =>
          let i_engine_type := engine_type_code engine_type in
          i_pollutant <- index_pollutant_pre_euro_4 pollutant ;;
          i_copert_class <-
            match copert_class with
            | class_Euro_2 => Return 0%Z
            | class_Euro_3 => Return 1%Z
            | class_Euro_4 => Return 2%Z
            | _ => Raise KeyError
            end ;;
          percentage <-
            (i <- axis 2 i_engine_type ;;
             j <- axis 3 i_copert_class ;;
             k <- axis 4 i_pollutant ;;
             t <- getitem ldv_reduction_percentage i ;;
             t' <- getitem t j ;;
             getitem t' k) ;;
          let reduction_percentage := 0.01 * percentage in
          mul_value emission_factor_euro_1 (1.0 - reduction_percentage)
      end
    else if (class_code class_Euro_5 <=? class_code copert_class)%Z then
      i_pollutant <- index_pollutant pollutant ;;
      i_copert_class <- index_copert_class_ldv copert_class ;;
      '(a, b, c, d, e, f, g, h, rf, Vmin, Vmax, N_eq) <-
        ldv_parameter_getitem self (engine_type_code engine_type)
          i_copert_class i_pollutant ;;
      let V := py_min (py_max Vmin speed) Vmax in
      n <- int_of_float N_eq ;;
      equation <- getitem list_equation_ldv n ;;
      let emission_factor := equation a b c d e f g h rf V in
      return_float emission_factor
    else return_None
  end.

Definition HEFLightCommercialVehicle : Copert -> pollutant_t -> float ->
  engine_type_t -> copert_class_t -> result value :=
  HEFLightCommercialVehicle_depth 2.

(** Hot emission factor for heavy duty vehicles and buses. *)
Definition HEFHeavyDutyVehicle (self : Copert) (speed : float)
  (vehicle_category : vehicle_type_t) (hdv_type : hdv_type_t)
  (hdv_copert_class : hdv_copert_class_t) (pollutant : pollutant_t)
  (load : hdv_load_t) (slope : slope_t) : result value :=
  let i_hdv_or_bus := index_vehicle_type vehicle_category in
  let i_hdv_type := hdv_type_code hdv_type in
  let i_hdv_copert_class := class_hdv_code hdv_copert_class in
  i_pollutant <- index_pollutant pollutant ;;
  let i_load := hdv_load_code load in
  let i_slope := slope_code slope in
  '(a, b, c, d, e, f, g, Vmin, Vmax, N_eq) <-
    hdv_parameter_getitem self i_hdv_or_bus i_hdv_type i_hdv_copert_class
      i_pollutant i_load i_slope ;;
  let V := py_min (py_max Vmin speed) Vmax in
  if 0 <=? N_eq then
    n <- int_of_float N_eq ;;
    equation <- getitem list_equation_hdv n ;;
    let emission_factor := equation a b c d e f g V in
    return_float emission_factor
  else
    Raise (Exception msg_hdv_no_formula).

(** The emissions in g. *)
Definition Emission (self : Copert) (pollutant : pollutant_t)
  (speed distance : float) (vehicle_type : vehicle_type_t)
  (engine_type : engine_type_t) (copert_class : copert_class_t)
  (engine_capacity ambient_temperature : float) : result value :=
  match vehicle_type with
  | vehicle_type_passenger_car =>
      match engine_type with
      | engine_type_gasoline =>
          factor <- HEFGasolinePassengerCar pollutant speed copert_class
                      engine_capacity ;;
          rmul_value distance factor
      | engine_type_diesel =>
          factor <- HEFDieselPassengerCar pollutant speed copert_class
                      engine_capacity ;;
          rmul_value distance factor
      | _ => Raise (Exception msg_only_gasoline_and_diesel)
      end
  | _ => Raise (Exception msg_only_passenger_cars)
  end.

End Resolvers.

(** ** A library and an object to run the model on *)

(** The three functions by their series: the exponential by its Taylor
    series after halving the argument ten times, the logarithm by
    Halley's iteration on the exponential, the power through both. *)
Fixpoint exp_series (n : nat) (k x term sum : float) : float :=
  match n with
  | O => sum
  | S n' =>
      let term' := term * x / k in
      exp_series n' (k + 1) x term' (sum + term')
  end.

Fixpoint repeated_square (n : nat) (y : float) : float :=
  match n with
  | O => y
  | S n' => repeated_square n' (y * y)
  end.

Definition series_exp (x : float) : float :=
  repeated_square 10 (exp_series 20 1 (x / 1024) 1 1).

Fixpoint log_iteration (n : nat) (x y : float) : float :=
  match n with
  | O => y
  | S n' =>
      let e := series_exp y in
      log_iteration n' x (y + 2 * (x - e) / (x + e))
  end.

Definition series_log (x : float) : float :=
  if 0 <? x then log_iteration 60 x 0
  else if x =? 0 then neg_infinity
  else nan.

Definition series_pow (x y : float) : float :=
  if y =? 0 then 1
  else if 0 <? x then series_exp (y * series_log x)
  else if (x =? 0) && (0 <? y) then 0
  else nan.

Definition libm_series : Libm := {|
  math_exp := series_exp;
  math_log := series_log;
  pow := series_pow
|}.

Definition ldv_row_nan : ldv_row :=
  (nan, nan, nan, nan, nan, nan, nan, nan, nan, nan, nan, nan).

Definition hdv_row_nan : hdv_row :=
  (nan, nan, nan, nan, nan, nan, nan, nan, nan, nan).

(** The object the constructor builds from two files without a line of
    data: both arrays filled with NaN. *)
Definition copert_no_line : Copert := {|
  ldv_parameter := fun _ _ _ => ldv_row_nan;
  hdv_parameter := fun _ _ _ _ _ _ => hdv_row_nan
|}.

(** An object with one line in each array, of made-up coefficients: for
    diesel light commercial vehicles of class Euro 5 and CO, with
    Equation 1 on [10, 130] km/h, and for rigid trucks under 7.5 t of
    class Euro III and NOx, at half load on a flat road, with the
    equation of index 7 on [6, 86] km/h. *)
Definition copert_one_line : Copert := {|
  ldv_parameter := fun i j k =>
    if ((i =? 1) && (j =? 0) && (k =? 0))%Z then
      (0.5, 0.1, (-0.01), 0.001, 0.0001, 0.2, 0.0, 0.0, 0.0, 10.0, 130.0, 0.0)
    else ldv_row_nan;
  hdv_parameter := fun i j k l m n =>
    if ((i =? 0) && (j =? 1) && (k =? 3) && (l =? 1) && (m =? 1)
        && (n =? 0))%Z then
      (0.02, 0.004, 0.0, 0.0, 0.0, 0.0, 0.0, 6.0, 86.0, 7.0)
    else hdv_row_nan
|}.

(** ** What the statements speak of *)

(** The entry of the reduction table for a request, looked up as
    [HEFLightCommercialVehicle] does for the classes Euro 2 to Euro 4. *)
Definition ldv_reduction_percentage_at (engine_type : engine_type_t)
  (copert_class : copert_class_t) (pollutant : pollutant_t) : result float :=
  i_pollutant <- index_pollutant_pre_euro_4 pollutant ;;
  i_copert_class <-
    match copert_class with
    | class_Euro_2 => Return 0%Z
    | class_Euro_3 => Return 1%Z
    | class_Euro_4 => Return 2%Z
    | _ => Raise KeyError
    end ;;
  i <- axis 2 (engine_type_code engine_type) ;;
  j <- axis 3 i_copert_class ;;
  k <- axis 4 i_pollutant ;;
  t <- getitem ldv_reduction_percentage i ;;
  t' <- getitem t j ;;
  getitem t' k.



(** The error kinds of the specification, read off the exception a call
    ends with: the speed message is an out-of-domain error, the other
    messages on a missing formula are undefined combinations, a key
    missing in a dictionary is a missing classification. *)
Inductive error_kind : Type :=
| OutOfDomain
| UndefinedCombination
| MissingClassification
| OtherError.

Definition no_formula_prefix : string := "There is no formula".

Definition kind_of (e : exn) : error_kind :=
  match e with
  | Exception msg =>
      if String.eqb msg msg_speed_out_of_range then OutOfDomain
      else if String.prefix no_formula_prefix msg
              || String.eqb msg msg_diesel_Euro_3_GDI
      then UndefinedCombination
      else OtherError
  | KeyError => MissingClassification
  | _ => OtherError
  end.

(** Whether a result is a float that is not a NaN. *)
Definition is_factor (r : result value) : bool :=
  match r with
  | Return (Some x) => negb (is_nan x)
  | _ => false
  end.

(** A speed that passes the two tests of the passenger car resolvers: it
    is not zero and is neither below 10 km/h nor above 130 km/h. *)
Definition passes_speed_tests (V : float) : bool :=
  negb (V =? 0) && negb ((V <? 10) || (130 <? V)).

(** The classes before Euro 1. *)
Definition is_pre_euro (c : copert_class_t) : bool :=
  (class_code c <? class_code class_Euro_1)%Z.

(** The engine capacities for which the gasoline resolver has formulae
    for a pre-Euro class: from 0.8 l, and up to 2.0 l for the classes
    Improved Conventional and Open loop. *)
Definition gasoline_capacity_accepted (c : copert_class_t)
  (engine_capacity : float) : bool :=
  match c with
  | class_Improved_Conventional | class_Open_loop =>
      negb ((engine_capacity <? 0.8) || (2.0 <? engine_capacity))
  | _ => negb (engine_capacity <? 0.8)
  end.

From Stdlib Require Import Ascii.

(** ** The constructor *)

(** *** Python's operations on strings and lists *)

(** The whitespace that [strip] removes: space, tab, line feed, vertical
    tab, form feed, carriage return. *)
Definition is_whitespace (c : ascii) : bool :=
  let n := nat_of_ascii c in
  (Nat.eqb n 32 || (Nat.leb 9 n && Nat.leb n 13))%bool.

Fixpoint lstrip (s : string) : string :=
  match s with
  | EmptyString => EmptyString
  | String c s' => if is_whitespace c then lstrip s' else s
  end.

Fixpoint rstrip (s : string) : string :=
  match s with
  | EmptyString => EmptyString
  | String c s' =>
      match rstrip s' with
      | EmptyString => if is_whitespace c then EmptyString
                       else String c EmptyString
      | String c' r => String c (String c' r)
      end
  end.

(** [s.strip()]. *)
Definition strip (s : string) : string := rstrip (lstrip s).

(** [s.split(sep)] for a separator of one character. *)
Fixpoint split (sep : ascii) (s : string) : list string :=
  match s with
  | EmptyString => [EmptyString]
  | String c s' =>
      if Ascii.eqb c sep then EmptyString :: split sep s'
      else match split sep s' with
           | [] => [String c EmptyString]
           | word :: words => String c word :: words
           end
  end.

(** The first position of a character in a string, when it has one:
    [c in s] and [s.index(c)]. *)
Fixpoint str_index (c : ascii) (s : string) : option Z :=
  match s with
  | EmptyString => None
  | String c' s' =>
      if Ascii.eqb c' c then Some 0%Z
      else option_map Z.succ (str_index c s')
  end.

(** [s[:stop]]: a negative [stop] counts from the end. *)
Definition str_until (s : string) (stop : Z) : string :=
  let n := Z.of_nat (String.length s) in
  let stop' := if (stop <? 0)%Z then Z.max 0 (n + stop) else Z.min stop n in
  substring 0 (Z.to_nat stop') s.

(** [l[start:stop]] for indices that are not negative. *)
Definition slice {A : Type} (l : list A) (start stop : nat) : list A :=
  firstn (stop - start) (skipn start l).

(** [d[key]] on a dictionary with strings as keys. *)
Fixpoint dict_get {A : Type} (d : list (string * A)) (key : string)
  : result A :=
  match d with
  | [] => Raise KeyError
  | (k, v) :: d' => if String.eqb k key then Return v else dict_get d' key
  end.

(** The conversion [float(x)] of a string, a parameter of the model: it
    gives a float or raises. *)
Class Float_of_string : Type := {
  float_of_string : string -> result float
}.

(** [float(n)] for an integer. *)
Definition float_of_int (n : Z) : float := of_uint63 (Uint63.of_Z n).

(** [[f(x) for x in l]], the first error ending the loop. *)
Fixpoint map_result {A B : Type} (f : A -> result B) (l : list A)
  : result (list B) :=
  match l with
  | [] => Return []
  | x :: l' => y <- f x ;; ys <- map_result f l' ;; Return (y :: ys)
  end.

(** *** The correspondences between strings and integer attributes *)

Local Open Scope string_scope.

Definition corr_pollutant : list (string * pollutant_t) :=
  [("CO", pollutant_CO); ("NOx", pollutant_NOx); ("HC", pollutant_HC);
   ("PM", pollutant_PM); ("FC", pollutant_FC)].

Definition corr_ldv_type : list (string * engine_type_t) :=
  [("Gasoline <3.5 t", engine_type_gasoline);
   ("Diesel <3.5 t", engine_type_diesel)].

Definition corr_ldv_class : list (string * copert_class_t) :=
  [("5", class_Euro_5); ("6", class_Euro_6); ("6c", class_Euro_6c)].

Definition corr_ldv_equation : list (string * Z) :=
  [("Equation 1", 0%Z); ("Equation 9", 8%Z); ("Equation 12", 11%Z);
   ("Equation 16", 15%Z); ("Equation 17", 16%Z)].

Definition corr_hdv_or_bus : list (string * vehicle_type_t) :=
  [("HDV", vehicle_type_heavy_duty_vehicle); ("BUS", vehicle_type_bus)].

Definition corr_hdv_type : list (string * hdv_type_t) :=
  [("Gasoline >3.5 t", hdv_type_gasoline_3_5);
   ("Rigid <=7.5 t", hdv_type_rigid_7_5);
   ("Rigid 7.5 - 12 t", hdv_type_rigid_7_5_12);
   ("Rigid 12 - 14 t", hdv_type_rigid_12_14);
   ("Rigid 14 - 20 t", hdv_type_rigid_14_20);
   ("Rigid 20 - 26 t", hdv_type_rigid_20_26);
   ("Rigid 26 - 28 t", hdv_type_rigid_26_28);
   ("Rigid 28 - 32 t", hdv_type_rigid_28_32);
   ("Rigid >32 t", hdv_type_rigid_32);
   ("Articulated 14 - 20 t", hdv_type_articulated_14_20);
   ("Articulated 20 - 28 t", hdv_type_articulated_20_28);
   ("Articulated 28 - 34 t", hdv_type_articulated_28_34);
   ("Articulated 34 - 40 t", hdv_type_articulated_34_40);
   ("Articulated 40 - 50 t", hdv_type_articulated_40_50);
   ("Articulated 50 - 60 t", hdv_type_articulated_50_60);
   ("Urban Buses Midi <=15 t", bus_type_urban_15);
   ("Urban Buses Standard 15 - 18 t", bus_type_urban_15_18);
   ("Urban Buses Articulated >18 t", bus_type_urban_18);
   ("Coaches Standard <=18 t", bus_type_coach_standard_less_18);
   ("Coaches Articulated >18 t", bus_type_coach_articulated_more_18)].

Definition corr_tech : list (string * hdv_copert_class_t) :=
  [("Conventional", class_hdv_Conventional);
   ("HD Euro I", class_hdv_Euro_I);
   ("HD Euro II", class_hdv_Euro_II);
   ("HD Euro III", class_hdv_Euro_III);
   ("HD Euro IV", class_hdv_Euro_IV);
   ("HD Euro V - EGR", class_hdv_Euro_V_EGR);
   ("HD Euro V - SCR", class_hdv_Euro_V_SCR);
   ("HD Euro VI", class_hdv_Euro_VI)].

Definition corr_load : list (string * hdv_load_t) :=
  [("0", hdv_load_0); ("50", hdv_load_50); ("100", hdv_load_100)].

Definition corr_slope : list (string * slope_t) :=
  [("0%", slope_0); ("-6%", slope_negative_6); ("-4%", slope_negative_4);
   ("-2%", slope_negative_2); ("2%", slope_2); ("4%", slope_4);
   ("6%", slope_6)].

(** The technology of a line of the file of the heavy duty vehicles:
    what comes before the space and the first dash of the field, unless
    that is the technology Euro V, whose field is kept whole. *)
Definition hdv_tech_of (field : string) : string :=
  match str_index "-" field with
  | Some index =>
      if negb (String.eqb (str_until field index) "HD Euro V ") then
        str_until field (index - 1)
      else field
  | None => field
  end.

Local Close Scope string_scope.

(** *** The arrays and their assignment *)

Definition ldv_array : Type := Z -> Z -> Z -> ldv_row.
Definition hdv_array : Type := Z -> Z -> Z -> Z -> Z -> Z -> hdv_row.

(** The arrays after [fill(numpy.nan)]. *)
Definition ldv_array_nan : ldv_array := fun _ _ _ => ldv_row_nan.
Definition hdv_array_nan : hdv_array := fun _ _ _ _ _ _ => hdv_row_nan.

(** A list of floats assigned to a line of twelve (ten) values: a list
    of that length gives the line, a list of one value is repeated, any
    other length is refused. *)
Definition ldv_row_of_list (l : list float) : result ldv_row :=
  match l with
  | [a; b; c; d; e; f; g; h; rf; Vmin; Vmax; N_eq] =>
      Return (a, b, c, d, e, f, g, h, rf, Vmin, Vmax, N_eq)
  | [x] => Return (x, x, x, x, x, x, x, x, x, x, x, x)
  | _ => Raise ValueError
  end.

Definition hdv_row_of_list (l : list float) : result hdv_row :=
  match l with
  | [a; b; c; d; e; f; g; Vmin; Vmax; N_eq] =>
      Return (a, b, c, d, e, f, g, Vmin, Vmax, N_eq)
  | [x] => Return (x, x, x, x, x, x, x, x, x, x)
  | _ => Raise ValueError
  end.

(** [array[i, j, k] = row] and its like for [hdv_parameter].  An index
    [None] adds an axis: the integers after it index the axes before
    theirs, and all the lines left get the row. *)
Definition ldv_array_set (array : ldv_array) (i : Z) (j : option Z) (k : Z)
  (row : ldv_row) : result ldv_array :=
  match j with
  | Some j =>
      i <- axis 2 i ;;
      j <- axis 3 j ;;
      k <- axis 5 k ;;
      Return (fun i' j' k' =>
                if ((i' =? i) && (j' =? j) && (k' =? k))%Z then row
                else array i' j' k')
  | None =>
      i <- axis 2 i ;;
      k <- axis 3 k ;;
      Return (fun i' j' k' =>
                if ((i' =? i) && (j' =? k))%Z then row
                else array i' j' k')
  end.

Definition hdv_array_set (array : hdv_array) (i : option Z)
  (j k l m n : Z) (row : hdv_row) : result hdv_array :=
  match i with
  | Some i =>
      i <- axis 2 i ;;
      j <- axis 20 j ;;
      k <- axis 8 k ;;
      l <- axis 5 l ;;
      m <- axis 3 m ;;
      n <- axis 7 n ;;
      Return (fun i' j' k' l' m' n' =>
                if ((i' =? i) && (j' =? j) && (k' =? k) && (l' =? l)
                    && (m' =? m) && (n' =? n))%Z then row
                else array i' j' k' l' m' n')
  | None =>
      j <- axis 2 j ;;
      k <- axis 20 k ;;
      l <- axis 8 l ;;
      m <- axis 5 m ;;
      n <- axis 3 n ;;
      Return (fun i' j' k' l' m' n' =>
                if ((i' =? j) && (j' =? k) && (k' =? l) && (l' =? m)
                    && (m' =? n))%Z then row
                else array i' j' k' l' m' n')
  end.

(** *** The two loops over the lines of the files *)

Section Constructor.

Context {conversion : Float_of_string}.

Local Open Scope string_scope.

(** The body of the loop over the lines of the file of the light
    commercial vehicles. *)
Definition read_ldv_line (array : ldv_array) (line : string)
  : result ldv_array :=
  let line_split := map strip (split "," line) in
  field_0 <- getitem line_split 0 ;;
  if String.eqb field_0 "Sector" then Return array
  else
    field_1 <- getitem line_split 1 ;;
    ldv_type <- dict_get corr_ldv_type field_1 ;;
    let i_ldv_type := engine_type_code ldv_type in
    field_3 <- getitem line_split 3 ;;
    ldv_class <- dict_get corr_ldv_class field_3 ;;
    i_ldv_copert_class <- index_copert_class_ldv ldv_class ;;
    field_4 <- getitem line_split 4 ;;
    pollutant <- dict_get corr_pollutant field_4 ;;
    i_pollutant <- index_pollutant pollutant ;;
    field_16 <- getitem line_split 16 ;;
    equation <- dict_get corr_ldv_equation field_16 ;;
    coefficients <- map_result float_of_string (slice line_split 5 16) ;;
    let values := (coefficients ++ [float_of_int equation])%list in
    row <- ldv_row_of_list values ;;
    ldv_array_set array i_ldv_type i_ldv_copert_class i_pollutant row.

(** The body of the loop over the lines of the file of the heavy duty
    vehicles and buses. *)
Definition read_hdv_line (array : hdv_array) (line : string)
  : result hdv_array :=
  let line_split := map strip (split "," line) in
  field_0 <- getitem line_split 0 ;;
  if String.eqb field_0 "Type" then Return array
  else
    field_3 <- getitem line_split 3 ;;
    let hdv_tech := hdv_tech_of field_3 in
    hdv_or_bus <- dict_get corr_hdv_or_bus field_0 ;;
    let i_hdv_or_bus := index_vehicle_type hdv_or_bus in
    field_1 <- getitem line_split 1 ;;
    hdv_type <- dict_get corr_hdv_type field_1 ;;
    let i_hdv_type := hdv_type_code hdv_type in
    tech <- dict_get corr_tech hdv_tech ;;
    let i_hdv_tech := class_hdv_code tech in
    field_4 <- getitem line_split 4 ;;
    pollutant <- dict_get corr_pollutant field_4 ;;
    i_pollutant <- index_pollutant pollutant ;;
    field_5 <- getitem line_split 5 ;;
    load <- dict_get corr_load field_5 ;;
    let i_hdv_load := hdv_load_code load in
    field_6 <- getitem line_split 6 ;;
    slope <- dict_get corr_slope field_6 ;;
    let i_hdv_slope := slope_code slope in
    values <- map_result float_of_string (slice line_split 8 18) ;;
    row <- hdv_row_of_list values ;;
    hdv_array_set array i_hdv_or_bus i_hdv_type i_hdv_tech i_pollutant
      i_hdv_load i_hdv_slope row.

Local Close Scope string_scope.

(** A loop over lines, ended by the first error. *)
Fixpoint read_lines {A : Type} (read : A -> string -> result A) (array : A)
  (lines : list string) : result A :=
  match lines with
  | [] => Return array
  | line :: lines' =>
      array' <- read array line ;;
      read_lines read array' lines'
  end.

(** The constructor, on the lines of the two parameter files. *)
Definition __init__ (ldv_parameter_file hdv_parameter_file : list string)
  : result Copert :=
  ldv <- read_lines read_ldv_line ldv_array_nan ldv_parameter_file ;;
  hdv <- read_lines read_hdv_line hdv_array_nan hdv_parameter_file ;;
  Return {| ldv_parameter := ldv; hdv_parameter := hdv |}.

End Constructor.

(** A conversion for the strings of decimal digits and for the string
    [nan], to run the constructor on examples. *)
Fixpoint digits_value (s : string) (acc : Z) : option Z :=
  match s with
  | EmptyString => Some acc
  | String c s' =>
      let n := nat_of_ascii c in
      if (Nat.leb 48 n && Nat.leb n 57)%bool then
        digits_value s' (acc * 10 + Z.of_nat (n - 48))%Z
      else None
  end.

Definition float_of_string_digits : Float_of_string := {|
  float_of_string := fun s =>
    if String.eqb s "nan" then Return nan
    else match s with
         | EmptyString => Raise ValueError
         | _ => match digits_value s 0 with
                | Some n => Return (float_of_int n)
                | None => Raise ValueError
                end
         end
|}.

(** A field of a line as the loops read it back: without comma and
    without whitespace around it. *)
Definition clean_field (field : string) : Prop :=
  str_index "," field = None /\ strip field = field.

(** The line of a file made of fields. *)
Definition line_of_fields (fields : list string) : string :=
  (String.concat "," fields ++ String (ascii_of_nat 10) EmptyString)%string.




(** The fields of a line of each file, with made-up values. *)
Definition sample_ldv_fields : list string :=
  ["PC"; "Diesel <3.5 t"; "x"; "5"; "CO"; "1"; "2"; "3"; "4"; "5"; "6";
   "7"; "8"; "0"; "10"; "130"; "Equation 1"]%string.

Definition sample_hdv_fields : list string :=
  ["HDV"; "Rigid <=7.5 t"; "x"; "HD Euro III - SCR"; "NOx"; "50"; "0%";
   "x"; "1"; "2"; "3"; "4"; "5"; "6"; "7"; "6"; "86"; "7"]%string.

(** ** Order on binary64 values *)

Lemma SFcompare_antisym (x y : spec_float) :
  SFcompare y x = option_map CompOpp (SFcompare x y).
Proof.
  destruct x as [sx | sx | | sx mx ex], y as [sy | sy | | sy my ey];
    try reflexivity; try (destruct sx; reflexivity);
    try (destruct sy; reflexivity);
    try (destruct sx, sy; reflexivity).
  destruct sx, sy; simpl; try reflexivity;
    rewrite (Z.compare_antisym ex ey);
    destruct (ex ?= ey)%Z; simpl; try reflexivity;
    change PosDef.Pos.compare_cont with Pos.compare_cont;
    rewrite (ZC4 my mx); reflexivity.
Qed.

Lemma leb_ltb_false (x y : float) : (x <=? y) = true -> (y <? x) = false.
Proof.
  rewrite leb_spec, ltb_spec. unfold SFleb, SFltb.
  rewrite (SFcompare_antisym (Prim2SF x)).
  destruct (SFcompare (Prim2SF x) (Prim2SF y)) as [[ | | ] | ];
    simpl; congruence.
Qed.

Ltac by_float_cases x y :=
  destruct (Prim2SF x) as [[ | ] | [ | ] | | [ | ] ? ?],
           (Prim2SF y) as [[ | ] | [ | ] | | [ | ] ? ?];
  simpl; congruence.



Lemma ltb_zero_leb_nonzero (x y : float) :
  (0 <? x) = true -> (x <=? y) = true -> (y =? 0) = false.
Proof.
  rewrite ltb_spec, leb_spec, FloatAxioms.eqb_spec.
  change (Prim2SF 0) with (S754_zero false).
  unfold SFltb, SFleb, SFeqb. by_float_cases x y.
Qed.

(** ** Clamping *)



(** ** Properties of the resolvers *)

Section Properties.

Context {libm : Libm}.

(** *** Nesting of the calls of [HEFLightCommercialVehicle] *)

(** Two levels of calls are enough: a deeper bound gives the same
    result. *)
Lemma HEFLightCommercialVehicle_depth_enough (n : nat) (self : Copert)
  (pollutant : pollutant_t) (speed : float) (engine_type : engine_type_t)
  (copert_class : copert_class_t) :
  HEFLightCommercialVehicle_depth (S (S n)) self pollutant speed engine_type
    copert_class
  = HEFLightCommercialVehicle self pollutant speed engine_type copert_class.
Proof.
  unfold HEFLightCommercialVehicle.
  destruct copert_class; reflexivity.
Qed.

Lemma getitem_raises {A : Type} (l : list A) (i : Z) (e : exn) :
  getitem l i = Raise e -> e = IndexError.
Proof.
  unfold getitem. cbv zeta.
  set (j := if (i <? 0)%Z then _ else _).
  destruct (j <? 0)%Z; [congruence | ].
  destruct (nth_error l (Z.to_nat j)); congruence.
Qed.

Lemma int_of_float_raises (x : float) (e : exn) :
  int_of_float x = Raise e -> e = ValueError \/ e = OverflowError.
Proof.
  unfold int_of_float.
  destruct (Prim2SF x); intros H; inversion H; auto.
Qed.

Lemma axis_raises (n i : Z) (e : exn) :
  axis n i = Raise e -> e = IndexError.
Proof.
  unfold axis. destruct (_ && _); congruence.
Qed.

(** *** Zero speed *)

(** C1 (as amended).  For the gasoline passenger car and the light
    commercial vehicle resolvers, a call with [speed == 0] returns the
    factor 0, for every pollutant, engine type and class, before any
    other test; the diesel passenger car resolver does so for every
    class except Euro_3_GDI, for which its error on that class comes
    first. *)
Theorem zero_speed_returns_zero :
  forall (self : Copert) (pollutant : pollutant_t) (speed : float)
         (engine_type : engine_type_t) (copert_class : copert_class_t)
         (engine_capacity : float),
    (speed =? 0) = true ->
    HEFGasolinePassengerCar pollutant speed copert_class engine_capacity
    = return_float 0
    /\ (copert_class <> class_Euro_3_GDI ->
        HEFDieselPassengerCar pollutant speed copert_class engine_capacity
        = return_float 0)
    /\ HEFDieselPassengerCar pollutant speed class_Euro_3_GDI engine_capacity
       = Raise (Exception msg_diesel_Euro_3_GDI)
    /\ HEFLightCommercialVehicle self pollutant speed engine_type copert_class
       = return_float 0.
Proof.
  intros self pollutant speed engine_type copert_class engine_capacity H.
  repeat split.
  - unfold HEFGasolinePassengerCar. cbv zeta. rewrite H. reflexivity.
  - intros Hc. unfold HEFDieselPassengerCar.
    destruct copert_class; try congruence; cbv zeta;
      cbn [class_eqb class_code Z.eqb]; rewrite H; reflexivity.
  - unfold HEFLightCommercialVehicle.
    cbn [HEFLightCommercialVehicle_depth]. rewrite H. reflexivity.
Qed.

(** *** Speed out of [10, 130] km/h, passenger cars *)

(** C3 (as amended).  For a speed that is not zero and is strictly below
    10 km/h or strictly above 130 km/h, the gasoline passenger car
    resolver raises the out-of-domain error for every class and
    pollutant, and the diesel passenger car resolver for every class
    except Euro_3_GDI. *)
Theorem speed_out_of_range_raises :
  forall (pollutant : pollutant_t) (speed : float)
         (copert_class : copert_class_t) (engine_capacity : float),
    (speed =? 0) = false ->
    (speed <? 10) = true \/ (130 <? speed) = true ->
    HEFGasolinePassengerCar pollutant speed copert_class engine_capacity
    = Raise (Exception msg_speed_out_of_range)
    /\ (copert_class <> class_Euro_3_GDI ->
        HEFDieselPassengerCar pollutant speed copert_class engine_capacity
        = Raise (Exception msg_speed_out_of_range))
    /\ kind_of (Exception msg_speed_out_of_range) = OutOfDomain.
Proof.
  intros pollutant speed copert_class engine_capacity H0 Hr.
  assert (Hor : (speed <? 10) || (130 <? speed) = true)
    by (apply orb_true_iff; exact Hr).
  repeat split.
  - unfold HEFGasolinePassengerCar. cbv zeta. rewrite H0, Hor. reflexivity.
  - intros Hc. unfold HEFDieselPassengerCar.
    destruct copert_class; try congruence; cbv zeta;
      cbn [class_eqb class_code Z.eqb]; rewrite H0, Hor; reflexivity.
Qed.

(** *** Diesel cars of class Euro_3_GDI *)

(** C4.  For the class Euro_3_GDI, every call of
    [HEFDieselPassengerCar] raises the error on that class, an
    undefined combination, whatever the pollutant, the speed (zero and
    out of [10, 130] included) and the engine capacity. *)
Theorem diesel_Euro_3_GDI_raises :
  forall (pollutant : pollutant_t) (speed engine_capacity : float),
    HEFDieselPassengerCar pollutant speed class_Euro_3_GDI engine_capacity
    = Raise (Exception msg_diesel_Euro_3_GDI)
    /\ kind_of (Exception msg_diesel_Euro_3_GDI) = UndefinedCombination.
Proof.
  intros pollutant speed engine_capacity. split; reflexivity.
Qed.

(** *** Pre-Euro classes without formula *)

(** C2 (the code at the failing inputs).  For every pre-Euro class, the
    gasoline resolver called with HC, PM or FC and the diesel resolver
    called with HC reach the end of their chain of tests and return
    [None]: no error is raised.  Here at 50 km/h with an engine of
    1.0 l. *)
Theorem pre_euro_without_formula_returns_None :
  Forall
    (fun copert_class : copert_class_t =>
       HEFGasolinePassengerCar pollutant_HC 50 copert_class 1.0 = return_None
       /\ HEFGasolinePassengerCar pollutant_PM 50 copert_class 1.0
          = return_None
       /\ HEFGasolinePassengerCar pollutant_FC 50 copert_class 1.0
          = return_None
       /\ HEFDieselPassengerCar pollutant_HC 50 copert_class 1.0
          = return_None)
    [class_PRE_ECE; class_ECE_15_00_or_01; class_ECE_15_02; class_ECE_15_03;
     class_ECE_15_04; class_Improved_Conventional; class_Open_loop].
Proof.
  repeat constructor.
Qed.

(** *** Gasoline cars of class PRE_ECE, CO *)

(** C8.  For a gasoline passenger car of class PRE_ECE, CO and an
    engine capacity of at least 0.8 l, at a speed [V] in [10, 130]: the
    factor is [281 * V ** (-0.63)] when [V < 100] and
    [0.112 * V + 4.32] when [V >= 100]; at 80 km/h it is
    [281 * 80 ** (-0.63)], at 110 km/h it is 16.64. *)
Theorem gasoline_PRE_ECE_CO :
  forall (engine_capacity : float),
    (0.8 <=? engine_capacity) = true ->
    (forall V : float,
        (10 <=? V) = true -> (V <=? 130) = true ->
        ((V <? 100) = true ->
         HEFGasolinePassengerCar pollutant_CO V class_PRE_ECE engine_capacity
         = return_float (281 * pow V (-0.63)))
        /\ ((100 <=? V) = true ->
            HEFGasolinePassengerCar pollutant_CO V class_PRE_ECE
              engine_capacity
            = return_float (0.112 * V + 4.32)))
    /\ HEFGasolinePassengerCar pollutant_CO 80 class_PRE_ECE engine_capacity
       = return_float (281 * pow 80 (-0.63))
    /\ HEFGasolinePassengerCar pollutant_CO 110 class_PRE_ECE engine_capacity
       = return_float 16.64.
Proof.
  intros engine_capacity Hcap.
  apply leb_ltb_false in Hcap.
  assert (Hgen : forall V : float,
             (10 <=? V) = true -> (V <=? 130) = true ->
             HEFGasolinePassengerCar pollutant_CO V class_PRE_ECE
               engine_capacity
             = if V <? 100 then return_float (281 * pow V (-0.63))
               else return_float (0.112 * V + 4.32)).
  { intros V Hlo Hhi.
    assert (H0 : (V =? 0) = false)
      by (apply (ltb_zero_leb_nonzero 10); [reflexivity | exact Hlo]).
    apply leb_ltb_false in Hlo. apply leb_ltb_false in Hhi.
    unfold HEFGasolinePassengerCar. cbv zeta.
    rewrite H0, Hlo, Hhi, Hcap. cbn [orb].
    destruct (V <? 100); reflexivity. }
  split; [ | split].
  - intros V Hlo Hhi. rewrite (Hgen V Hlo Hhi). split.
    + intros Hlt. rewrite Hlt. reflexivity.
    + intros Hge. apply leb_ltb_false in Hge. rewrite Hge. reflexivity.
  - rewrite Hgen; reflexivity.
  - rewrite Hgen; reflexivity.
Qed.

(** *** Gasoline cars of class ECE_15_02 with a small engine *)

(** C9 (as amended).  For a gasoline passenger car of class ECE_15_02
    with an engine capacity of 0.5 l, at every speed that is not zero
    and neither below 10 km/h nor above 130 km/h,
    [HEFGasolinePassengerCar] raises the error on an engine capacity
    lower than 0.8 l, whatever the pollutant. *)
Theorem gasoline_ECE_15_02_small_engine_raises :
  forall (pollutant : pollutant_t) (speed : float),
    (speed =? 0) = false ->
    (speed <? 10) = false -> (130 <? speed) = false ->
    HEFGasolinePassengerCar pollutant speed class_ECE_15_02 0.5
    = Raise (Exception msg_capacity_lower_0_8)
    /\ kind_of (Exception msg_capacity_lower_0_8) = UndefinedCombination.
Proof.
  intros pollutant speed H0 Hlo Hhi.
  split; [ | reflexivity].
  unfold HEFGasolinePassengerCar. cbv zeta.
  rewrite H0, Hlo, Hhi. reflexivity.
Qed.

(** *** The emissions *)

(** C10.  [Emission] raises for every vehicle type other than passenger
    car and, for a passenger car, for every engine type other than
    gasoline and diesel; for a gasoline or diesel passenger car it
    returns the distance times the factor of the corresponding
    resolver, whose errors it lets through.  It never reads the arrays
    of the light commercial and heavy duty vehicles: its result is the
    same on every object. *)
Theorem Emission_only_passenger_cars :
  forall (self : Copert) (pollutant : pollutant_t) (speed distance : float)
         (vehicle_type : vehicle_type_t) (engine_type : engine_type_t)
         (copert_class : copert_class_t)
         (engine_capacity ambient_temperature : float),
    let emission := Emission self pollutant speed distance vehicle_type
                      engine_type copert_class engine_capacity
                      ambient_temperature in
    (vehicle_type <> vehicle_type_passenger_car ->
     emission = Raise (Exception msg_only_passenger_cars))
    /\ (vehicle_type = vehicle_type_passenger_car ->
        engine_type <> engine_type_gasoline ->
        engine_type <> engine_type_diesel ->
        emission = Raise (Exception msg_only_gasoline_and_diesel))
    /\ (vehicle_type = vehicle_type_passenger_car ->
        engine_type = engine_type_gasoline ->
        (forall factor : float,
            HEFGasolinePassengerCar pollutant speed copert_class
              engine_capacity = return_float factor ->
            emission = return_float (distance * factor))
        /\ (forall e : exn,
               HEFGasolinePassengerCar pollutant speed copert_class
                 engine_capacity = Raise e ->
               emission = Raise e))
    /\ (vehicle_type = vehicle_type_passenger_car ->
        engine_type = engine_type_diesel ->
        (forall factor : float,
            HEFDieselPassengerCar pollutant speed copert_class
              engine_capacity = return_float factor ->
            emission = return_float (distance * factor))
        /\ (forall e : exn,
               HEFDieselPassengerCar pollutant speed copert_class
                 engine_capacity = Raise e ->
               emission = Raise e))
    /\ (forall self' : Copert,
           Emission self' pollutant speed distance vehicle_type engine_type
             copert_class engine_capacity ambient_temperature
           = emission).
Proof.
  intros self pollutant speed distance vehicle_type engine_type copert_class
    engine_capacity ambient_temperature emission.
  subst emission. unfold Emission.
  split; [ | split; [ | split; [ | split]]].
  - intros Hv. destruct vehicle_type; congruence.
  - intros -> Hg Hd. destruct engine_type; congruence.
  - intros -> ->. split.
    + intros factor ->. reflexivity.
    + intros e ->. reflexivity.
  - intros -> ->. split.
    + intros factor ->. reflexivity.
    + intros e ->. reflexivity.
  - intros self'. reflexivity.
Qed.

(** *** Light commercial vehicles, Euro 2 to Euro 4 *)

(** C5 (as amended).  For a light commercial vehicle of class Euro_2,
    Euro_3 or Euro_4, engine type gasoline or diesel and a pollutant
    other than HC and FC, the reduction table holds an entry and the
    result is the result for the same inputs with class Euro_1, its
    factor multiplied by one minus 0.01 times that entry and its error
    raised unchanged.  This holds at every speed other than zero, and at
    speed zero unless the request is for gasoline and PM, where the
    entry is a NaN. *)
Theorem Euro_2_to_4_reduces_Euro_1 :
  forall (self : Copert) (pollutant : pollutant_t) (speed : float)
         (engine_type : engine_type_t) (copert_class : copert_class_t),
    copert_class = class_Euro_2 \/ copert_class = class_Euro_3
    \/ copert_class = class_Euro_4 ->
    engine_type = engine_type_gasoline \/ engine_type = engine_type_diesel ->
    pollutant <> pollutant_HC ->
    pollutant <> pollutant_FC ->
    (speed =? 0) = false
    \/ ~ (engine_type = engine_type_gasoline /\ pollutant = pollutant_PM) ->
    exists percentage : float,
      ldv_reduction_percentage_at engine_type copert_class pollutant
      = Return percentage
      /\ HEFLightCommercialVehicle self pollutant speed engine_type
           copert_class
         = (factor <- HEFLightCommercialVehicle self pollutant speed
                        engine_type class_Euro_1 ;;
            mul_value factor (1 - 0.01 * percentage)).
Proof.
  intros self pollutant speed engine_type copert_class Hc He Hhc Hfc Hs.
  unfold HEFLightCommercialVehicle.
  destruct Hc as [-> | [-> | ->]], He as [-> | ->];
    destruct pollutant; try congruence;
    (eexists; split; [reflexivity | ]);
    cbn [HEFLightCommercialVehicle_depth];
    destruct (speed =? 0) eqn:H0; try reflexivity;
    destruct Hs as [Hs | Hs]; try discriminate Hs;
    exfalso; apply Hs; split; reflexivity.
Qed.

(** C6 (the code at the failing inputs, and where it agrees).  For a
    light commercial vehicle of class Euro_2, Euro_3 or Euro_4, with
    engine type gasoline or diesel, at a speed other than zero: with FC
    the call raises the error on the classes Euro 2 to Euro 4; with HC
    the call made first for the class Euro_1 fails on the key HC, which
    [index_pollutant_pre_euro_4] does not have, and the call ends with
    that [KeyError]. *)
Theorem Euro_2_to_4_HC_and_FC :
  forall (self : Copert) (speed : float) (engine_type : engine_type_t)
         (copert_class : copert_class_t),
    copert_class = class_Euro_2 \/ copert_class = class_Euro_3
    \/ copert_class = class_Euro_4 ->
    engine_type = engine_type_gasoline \/ engine_type = engine_type_diesel ->
    (speed =? 0) = false ->
    HEFLightCommercialVehicle self pollutant_FC speed engine_type copert_class
    = Raise (Exception msg_ldv_Euro_2_to_Euro_4)
    /\ HEFLightCommercialVehicle self pollutant_HC speed engine_type
         copert_class
       = Raise KeyError
    /\ kind_of (Exception msg_ldv_Euro_2_to_Euro_4) = UndefinedCombination
    /\ kind_of KeyError = MissingClassification.
Proof.
  intros self speed engine_type copert_class Hc He H0.
  unfold HEFLightCommercialVehicle.
  destruct Hc as [-> | [-> | ->]], He as [-> | ->];
    cbn [HEFLightCommercialVehicle_depth]; rewrite H0;
    repeat split; reflexivity.
Qed.

(** *** Speed clamped into the range of the selected line *)









Lemma ldv_parameter_getitem_raises (self : Copert) (i : Z) (j : option Z)
  (k : Z) (e : exn) :
  ldv_parameter_getitem self i j k = Raise e ->
  e = IndexError \/ e = ValueError.
Proof.
  unfold ldv_parameter_getitem.
  destruct j as [j | ];
    repeat match goal with
      | |- context [axis ?n ?x] =>
          let Ea := fresh "Ea" in
          destruct (axis n x) eqn:Ea;
          [ | apply axis_raises in Ea; cbn [bind]; intros H; left;
              congruence ]; cbn [bind]
      end; intros H; inversion H; auto.
Qed.

Lemma index_pollutant_raises (pollutant : pollutant_t) (e : exn) :
  index_pollutant pollutant = Raise e -> e = KeyError.
Proof.
  destruct pollutant; cbn; congruence.
Qed.

(** The bound on the nesting of the calls is never met. *)
Lemma HEFLightCommercialVehicle_terminates (self : Copert)
  (pollutant : pollutant_t) (speed : float) (engine_type : engine_type_t)
  (copert_class : copert_class_t) :
  HEFLightCommercialVehicle self pollutant speed engine_type copert_class
  <> Raise RuntimeError.
Proof.
  unfold HEFLightCommercialVehicle.
  cbn [HEFLightCommercialVehicle_depth].
  destruct (speed =? 0); [discriminate | ].
  destruct copert_class;
    [ destruct pollutant, engine_type; cbv - [py_min py_max];
      discriminate .. | | | ];
    cbn [class_code Z.leb Z.compare Pos.compare Pos.compare_cont andb];
    (destruct (index_pollutant pollutant) as [i_pollutant | e] eqn:Ep;
     [ | apply index_pollutant_raises in Ep; cbn [bind]; congruence ]);
    cbn [bind index_copert_class_ldv];
    (destruct (ldv_parameter_getitem self _ _ i_pollutant)
       as [[[[[[[[[[[[a b] c] d] e] f] g] h] rf] Vmin] Vmax] N_eq] | e] eqn:El;
     [ | apply ldv_parameter_getitem_raises in El; cbn [bind];
         destruct El; congruence ]);
    cbn [bind];
    (destruct (int_of_float N_eq) as [n | e'] eqn:En;
     [ | apply int_of_float_raises in En; cbn [bind];
         destruct En; congruence ]);
    cbn [bind];
    (destruct (getitem list_equation_ldv n) as [equation | e'] eqn:Eg;
     [ | apply getitem_raises in Eg; cbn [bind]; congruence ]);
    discriminate.
Qed.
End Properties.

(** ** The statements at concrete inputs *)

(** C1 at speed 0: a gasoline car, a diesel car and a light commercial
    vehicle of class Euro_1. *)
Lemma zero_speed_returns_zero_witness :
  (0 =? 0) = true
  /\ HEFGasolinePassengerCar (libm := libm_series) pollutant_CO 0
       class_Euro_1 1.6 = return_float 0
  /\ HEFDieselPassengerCar (libm := libm_series) pollutant_CO 0
       class_Euro_1 1.6 = return_float 0
  /\ HEFLightCommercialVehicle (libm := libm_series) copert_no_line
       pollutant_CO 0 engine_type_diesel class_Euro_1 = return_float 0.
Proof.
  destruct (@zero_speed_returns_zero libm_series copert_no_line pollutant_CO
              0 engine_type_diesel class_Euro_1 1.6 eq_refl)
    as (Hg & Hd & _ & Hl).
  split; [reflexivity | ].
  split; [exact Hg | ].
  split; [apply Hd; discriminate | exact Hl].
Defined.

(** C1 as stated fails: at speed 0 a diesel car of class Euro_3_GDI gets
    the error on its class, not the factor 0. *)
Lemma zero_speed_diesel_Euro_3_GDI_counterexample :
  (0 =? 0) = true
  /\ HEFDieselPassengerCar (libm := libm_series) pollutant_CO 0
       class_Euro_3_GDI 1.6 = Raise (Exception msg_diesel_Euro_3_GDI)
  /\ HEFDieselPassengerCar (libm := libm_series) pollutant_CO 0
       class_Euro_3_GDI 1.6 <> return_float 0.
Proof.
  split; [reflexivity | split; [reflexivity | discriminate]].
Qed.

(** C3 at 5 km/h. *)
Lemma speed_out_of_range_raises_witness :
  (5 =? 0) = false /\ (5 <? 10) = true
  /\ HEFGasolinePassengerCar (libm := libm_series) pollutant_NOx 5
       class_Euro_4 1.6 = Raise (Exception msg_speed_out_of_range)
  /\ HEFDieselPassengerCar (libm := libm_series) pollutant_NOx 5
       class_Euro_4 1.6 = Raise (Exception msg_speed_out_of_range).
Proof.
  destruct (@speed_out_of_range_raises libm_series pollutant_NOx 5
              class_Euro_4 1.6 eq_refl (or_introl eq_refl))
    as (Hg & Hd & _).
  split; [reflexivity | ].
  split; [reflexivity | ].
  split; [exact Hg | apply Hd; discriminate].
Defined.

(** C3 as stated fails: the speed 0 is below 10 km/h and the factor 0 is
    returned; at 5 km/h a diesel car of class Euro_3_GDI gets the error
    on its class, an undefined combination. *)
Lemma speed_below_10_counterexample :
  ((0 <? 10) = true
   /\ HEFGasolinePassengerCar (libm := libm_series) pollutant_CO 0
        class_PRE_ECE 1.0 = return_float 0
   /\ HEFGasolinePassengerCar (libm := libm_series) pollutant_CO 0
        class_PRE_ECE 1.0 <> Raise (Exception msg_speed_out_of_range))
  /\ ((5 <? 10) = true
      /\ HEFDieselPassengerCar (libm := libm_series) pollutant_CO 5
           class_Euro_3_GDI 1.6 = Raise (Exception msg_diesel_Euro_3_GDI)
      /\ kind_of (Exception msg_diesel_Euro_3_GDI) <> OutOfDomain).
Proof.
  repeat split; discriminate.
Qed.

(** C5 for diesel, Euro_2 and CO at 50 km/h. *)
Lemma Euro_2_to_4_reduces_Euro_1_witness :
  exists percentage : float,
    ldv_reduction_percentage_at engine_type_diesel class_Euro_2 pollutant_CO
    = Return percentage
    /\ HEFLightCommercialVehicle (libm := libm_series) copert_no_line
         pollutant_CO 50 engine_type_diesel class_Euro_2
       = (factor <- HEFLightCommercialVehicle (libm := libm_series)
                      copert_no_line pollutant_CO 50 engine_type_diesel
                      class_Euro_1 ;;
          mul_value factor (1 - 0.01 * percentage)).
Proof.
  apply (@Euro_2_to_4_reduces_Euro_1 libm_series copert_no_line pollutant_CO
           50 engine_type_diesel class_Euro_2).
  - left. reflexivity.
  - right. reflexivity.
  - discriminate.
  - discriminate.
  - left. reflexivity.
Defined.

(** C5 as stated fails: for gasoline, Euro_2 and PM at speed 0 the
    factor 0 is returned, as for Euro_1, while the reduction table holds
    a NaN, so that the product is a NaN. *)
Lemma Euro_2_gasoline_PM_zero_speed_counterexample :
  ldv_reduction_percentage_at engine_type_gasoline class_Euro_2 pollutant_PM
  = Return nan
  /\ HEFLightCommercialVehicle (libm := libm_series) copert_no_line
       pollutant_PM 0 engine_type_gasoline class_Euro_2 = return_float 0
  /\ HEFLightCommercialVehicle (libm := libm_series) copert_no_line
       pollutant_PM 0 engine_type_gasoline class_Euro_1 = return_float 0
  /\ HEFLightCommercialVehicle (libm := libm_series) copert_no_line
       pollutant_PM 0 engine_type_gasoline class_Euro_2
     <> (factor <- HEFLightCommercialVehicle (libm := libm_series)
                     copert_no_line pollutant_PM 0 engine_type_gasoline
                     class_Euro_1 ;;
         mul_value factor (1 - nan / 100)).
Proof.
  repeat split. intros H. apply (f_equal is_factor) in H. discriminate H.
Qed.

(** C6 at 50 km/h, gasoline, Euro_2. *)
Lemma Euro_2_to_4_HC_and_FC_witness :
  (50 =? 0) = false
  /\ HEFLightCommercialVehicle (libm := libm_series) copert_no_line
       pollutant_FC 50 engine_type_gasoline class_Euro_2
     = Raise (Exception msg_ldv_Euro_2_to_Euro_4)
  /\ HEFLightCommercialVehicle (libm := libm_series) copert_no_line
       pollutant_HC 50 engine_type_gasoline class_Euro_2
     = Raise KeyError.
Proof.
  destruct (@Euro_2_to_4_HC_and_FC libm_series copert_no_line 50
              engine_type_gasoline class_Euro_2 (or_introl eq_refl)
              (or_introl eq_refl) eq_refl)
    as (Hfc & Hhc & _).
  split; [reflexivity | split; [exact Hfc | exact Hhc]].
Defined.


(** C8 for an engine of 1.0 l, at 50 and at 120 km/h. *)
Lemma gasoline_PRE_ECE_CO_witness :
  (0.8 <=? 1.0) = true
  /\ ((10 <=? 50) = true /\ (50 <=? 130) = true /\ (50 <? 100) = true
      /\ HEFGasolinePassengerCar (libm := libm_series) pollutant_CO 50
           class_PRE_ECE 1.0
         = return_float (281 * series_pow 50 (-0.63)))
  /\ ((10 <=? 120) = true /\ (120 <=? 130) = true /\ (100 <=? 120) = true
      /\ HEFGasolinePassengerCar (libm := libm_series) pollutant_CO 120
           class_PRE_ECE 1.0
         = return_float (0.112 * 120 + 4.32))
  /\ HEFGasolinePassengerCar (libm := libm_series) pollutant_CO 110
       class_PRE_ECE 1.0 = return_float 16.64.
Proof.
  destruct (@gasoline_PRE_ECE_CO libm_series 1.0 eq_refl)
    as (Hgen & _ & H110).
  split; [reflexivity | ].
  split.
  - split; [reflexivity | ].
    split; [reflexivity | ].
    split; [reflexivity | ].
    apply (Hgen 50); reflexivity.
  - split; [ | exact H110].
    split; [reflexivity | ].
    split; [reflexivity | ].
    split; [reflexivity | ].
    apply (Hgen 120); reflexivity.
Defined.

(** C9 at 50 km/h. *)
Lemma gasoline_ECE_15_02_small_engine_raises_witness :
  (50 =? 0) = false /\ (50 <? 10) = false /\ (130 <? 50) = false
  /\ HEFGasolinePassengerCar (libm := libm_series) pollutant_CO 50
       class_ECE_15_02 0.5 = Raise (Exception msg_capacity_lower_0_8).
Proof.
  split; [reflexivity | ].
  split; [reflexivity | ].
  split; [reflexivity | ].
  apply (@gasoline_ECE_15_02_small_engine_raises libm_series pollutant_CO 50);
    reflexivity.
Defined.

(** C9 as stated fails: with an engine of 0.5 l and the class ECE_15_02,
    the factor 0 is returned at speed 0 and the error on the speed is
    raised at 5 km/h. *)
Lemma gasoline_ECE_15_02_small_engine_counterexample :
  (HEFGasolinePassengerCar (libm := libm_series) pollutant_CO 0
     class_ECE_15_02 0.5 = return_float 0
   /\ HEFGasolinePassengerCar (libm := libm_series) pollutant_CO 0
        class_ECE_15_02 0.5 <> Raise (Exception msg_capacity_lower_0_8))
  /\ (HEFGasolinePassengerCar (libm := libm_series) pollutant_CO 5
        class_ECE_15_02 0.5 = Raise (Exception msg_speed_out_of_range)
      /\ HEFGasolinePassengerCar (libm := libm_series) pollutant_CO 5
           class_ECE_15_02 0.5 <> Raise (Exception msg_capacity_lower_0_8)).
Proof.
  repeat split; discriminate.
Qed.

(** C10 for a bus, for a passenger car on LPG, and for a gasoline and a
    diesel passenger car of class Euro_1 over 2 km at 50 km/h. *)
Lemma Emission_only_passenger_cars_witness :
  Emission (libm := libm_series) copert_no_line pollutant_CO 50 2
    vehicle_type_bus engine_type_diesel class_Euro_1 1.6 20
  = Raise (Exception msg_only_passenger_cars)
  /\ Emission (libm := libm_series) copert_no_line pollutant_CO 50 2
       vehicle_type_passenger_car engine_type_LPG class_Euro_1 1.6 20
     = Raise (Exception msg_only_gasoline_and_diesel)
  /\ Emission (libm := libm_series) copert_no_line pollutant_CO 50 2
       vehicle_type_passenger_car engine_type_gasoline class_Euro_1 1.6 20
     = return_float
         (2 * EF_25 (libm := libm_series) 1.12e1 1.29e-1 (-1.02e-1)
                (-9.47e-4) 6.77e-4 0.0 50)
  /\ Emission (libm := libm_series) copert_no_line pollutant_CO 50 2
       vehicle_type_passenger_car engine_type_diesel class_Euro_1 1.2 20
     = Raise (Exception
                (msg_diesel_capacity_lower_1_4 pollutant_CO class_Euro_1)).
Proof.
  split; [ | split; [ | split]].
  - destruct (@Emission_only_passenger_cars libm_series copert_no_line
                pollutant_CO 50 2 vehicle_type_bus engine_type_diesel
                class_Euro_1 1.6 20) as (H & _).
    apply H. discriminate.
  - destruct (@Emission_only_passenger_cars libm_series copert_no_line
                pollutant_CO 50 2 vehicle_type_passenger_car engine_type_LPG
                class_Euro_1 1.6 20) as (_ & H & _).
    apply H; [reflexivity | discriminate | discriminate].
  - destruct (@Emission_only_passenger_cars libm_series copert_no_line
                pollutant_CO 50 2 vehicle_type_passenger_car
                engine_type_gasoline class_Euro_1 1.6 20)
      as (_ & _ & H & _).
    destruct (H eq_refl eq_refl) as (Hr & _).
    apply Hr. reflexivity.
  - destruct (@Emission_only_passenger_cars libm_series copert_no_line
                pollutant_CO 50 2 vehicle_type_passenger_car
                engine_type_diesel class_Euro_1 1.2 20)
      as (_ & _ & _ & H & _).
    destruct (H eq_refl eq_refl) as (_ & He).
    apply He. reflexivity.
Defined.

(** The heavy duty resolver has no test on a speed of zero: on the
    object with one line, at speed 0, the factor is the one at the lower
    bound 6 km/h of the range. *)
Example HEFHeavyDutyVehicle_at_zero_speed :
  HEFHeavyDutyVehicle (libm := libm_series) copert_one_line 0
    vehicle_type_heavy_duty_vehicle hdv_type_rigid_7_5 class_hdv_Euro_III
    pollutant_NOx hdv_load_50 slope_0
  = return_float (1 / (0.02 + 0.004 * 6) + 0 * (0 + 0 + 0 + 0 + 0)).
Proof. reflexivity. Qed.

(** ** Further properties of the resolvers *)

Section More_properties.

Context {libm : Libm}.

Lemma passes_speed_tests_true (V : float) :
  passes_speed_tests V = true ->
  (V =? 0) = false /\ (V <? 10) || (130 <? V) = false.
Proof.
  unfold passes_speed_tests. intros H.
  apply andb_true_iff in H. destruct H as [H1 H2].
  apply negb_true_iff in H1. apply negb_true_iff in H2. auto.
Qed.

Ltac case_tests :=
  repeat match goal with
    | |- context [if ?b then _ else _] => destruct b eqn:?
    end.

(** *** Calls that return [None] *)

(** X1.  [HEFGasolinePassengerCar] returns [None] exactly when the speed
    passes its two tests, the class is a pre-Euro class whose test on
    the engine capacity passes, and the pollutant is HC, PM or FC. *)
Theorem HEFGasolinePassengerCar_returns_None_iff :
  forall (pollutant : pollutant_t) (speed : float)
         (copert_class : copert_class_t) (engine_capacity : float),
    HEFGasolinePassengerCar pollutant speed copert_class engine_capacity
    = return_None
    <-> (passes_speed_tests speed = true
         /\ is_pre_euro copert_class = true
         /\ gasoline_capacity_accepted copert_class engine_capacity = true
         /\ (pollutant = pollutant_HC \/ pollutant = pollutant_PM
             \/ pollutant = pollutant_FC)).
Proof.
  intros pollutant speed copert_class engine_capacity.
  unfold HEFGasolinePassengerCar, passes_speed_tests. cbv zeta.
  destruct (speed =? 0); [ split; [discriminate | intros [H _]; discriminate H] | ].
  destruct ((speed <? 10) || (130 <? speed));
    [ split; [discriminate | intros [H _]; discriminate H] | ].
  destruct copert_class; cbn [is_pre_euro gasoline_capacity_accepted];
    try (destruct (engine_capacity <? 0.8); cbn [orb negb];
         [ split; [discriminate | intros (_ & _ & H & _); discriminate H]
         | ]);
    try (destruct (2.0 <? engine_capacity); cbn [orb negb];
         [ split; [discriminate | intros (_ & _ & H & _); discriminate H]
         | ]);
    destruct pollutant;
    try (split; [ intros _; repeat split; auto | reflexivity ]);
    (split;
     [ cbv - [PrimFloat.ltb PrimFloat.leb PrimFloat.add PrimFloat.mul
              PrimFloat.div pow math_exp math_log];
       case_tests; discriminate
     | intros (_ & Hc & _ & [Hp | [Hp | Hp]]);
       first [discriminate Hc | discriminate Hp] ]).
Qed.


(** X2.  [HEFDieselPassengerCar] returns [None] exactly when the speed
    passes its two tests, the class is a pre-Euro class and the
    pollutant is HC. *)
Theorem HEFDieselPassengerCar_returns_None_iff :
  forall (pollutant : pollutant_t) (speed : float)
         (copert_class : copert_class_t) (engine_capacity : float),
    HEFDieselPassengerCar pollutant speed copert_class engine_capacity
    = return_None
    <-> (passes_speed_tests speed = true
         /\ is_pre_euro copert_class = true
         /\ pollutant = pollutant_HC).
Proof.
  intros pollutant speed copert_class engine_capacity.
  unfold HEFDieselPassengerCar, passes_speed_tests. cbv zeta.
  destruct copert_class; cbn [class_eqb class_code Z.eqb is_pre_euro];
    try (split; [discriminate | intros (_ & H & _); discriminate H]);
    (destruct (speed =? 0);
     [ split; [discriminate | intros [H _]; discriminate H] | ]);
    (destruct ((speed <? 10) || (130 <? speed));
     [ split; [discriminate | intros [H _]; discriminate H] | ]);
    destruct pollutant;
    try (split; [ intros _; repeat split; auto | reflexivity ]);
    (split;
     [ cbv - [PrimFloat.ltb PrimFloat.leb PrimFloat.add PrimFloat.mul
              PrimFloat.div PrimFloat.opp pow math_exp math_log];
       case_tests; discriminate
     | intros (_ & Hc & Hp); first [discriminate Hc | discriminate Hp] ]).
Qed.


Lemma bind_not_None {A : Type} (r : result A) (k : A -> result value) :
  (forall a : A, k a <> return_None) -> bind r k <> return_None.
Proof.
  intros H. destruct r as [a | e]; [apply H | discriminate].
Qed.

Lemma mul_value_not_None (v : value) (x : float) :
  mul_value v x <> return_None.
Proof.
  destruct v; discriminate.
Qed.

Lemma rmul_value_not_None (x : float) (v : value) :
  rmul_value x v <> return_None.
Proof.
  destruct v; discriminate.
Qed.

(** X3.  [HEFLightCommercialVehicle], [HEFHeavyDutyVehicle] and
    [Emission] never return [None]: every call returns a float or
    raises. *)
Theorem never_returns_None :
  forall (self : Copert) (pollutant : pollutant_t) (speed : float),
    (forall (engine_type : engine_type_t) (copert_class : copert_class_t),
        HEFLightCommercialVehicle self pollutant speed engine_type
          copert_class <> return_None)
    /\ (forall (vehicle_category : vehicle_type_t) (hdv_type : hdv_type_t)
               (hdv_copert_class : hdv_copert_class_t) (load : hdv_load_t)
               (slope : slope_t),
           HEFHeavyDutyVehicle self speed vehicle_category hdv_type
             hdv_copert_class pollutant load slope <> return_None)
    /\ (forall (distance : float) (vehicle_type : vehicle_type_t)
               (engine_type : engine_type_t) (copert_class : copert_class_t)
               (engine_capacity ambient_temperature : float),
           Emission self pollutant speed distance vehicle_type engine_type
             copert_class engine_capacity ambient_temperature
           <> return_None).
Proof.
  intros self pollutant speed. split; [ | split].
  - intros engine_type copert_class.
    unfold HEFLightCommercialVehicle.
    cbn [HEFLightCommercialVehicle_depth].
    destruct (speed =? 0); [discriminate | ].
    destruct copert_class;
      [ destruct pollutant, engine_type; cbv - [py_min py_max];
        discriminate .. | | | ];
      cbn [class_code Z.leb Z.compare Pos.compare Pos.compare_cont andb];
      apply bind_not_None; intros i_pollutant;
      cbn [bind index_copert_class_ldv];
      apply bind_not_None;
      intros [[[[[[[[[[[a b] c] d] e] f] g] h] rf] Vmin] Vmax] N_eq];
      apply bind_not_None; intros n;
      apply bind_not_None; intros equation; discriminate.
  - intros vehicle_category hdv_type hdv_copert_class load slope.
    unfold HEFHeavyDutyVehicle. cbv zeta.
    apply bind_not_None; intros i_pollutant.
    apply bind_not_None;
      intros [[[[[[[[[a b] c] d] e] f] g] Vmin] Vmax] N_eq].
    destruct (0 <=? N_eq); [ | discriminate].
    apply bind_not_None; intros n.
    apply bind_not_None; intros equation. discriminate.
  - intros distance vehicle_type engine_type copert_class engine_capacity
      ambient_temperature.
    unfold Emission.
    destruct vehicle_type; try discriminate.
    destruct engine_type; try discriminate;
      apply bind_not_None; intros factor; apply rmul_value_not_None.
Qed.


(** *** Errors of the passenger car resolvers from Euro 1 on *)

Ltac in_cases H :=
  repeat (destruct H as [<- | H]); [ .. | destruct H].

(** X4.  For a gasoline car of class Euro_3_GDI at a speed that passes
    the tests, only PM has a factor, one of three constants by the
    speed (up to 60 km/h, up to 90 km/h, above); with any other
    pollutant the search of the class in [global_class_index] fails and
    the call ends with [ValueError]. *)
Theorem gasoline_Euro_3_GDI_only_PM :
  forall (pollutant : pollutant_t) (speed engine_capacity : float),
    passes_speed_tests speed = true ->
    (pollutant = pollutant_PM ->
     HEFGasolinePassengerCar pollutant speed class_Euro_3_GDI engine_capacity
     = return_float (if speed <=? 60 then 6.6e-3
                     else if speed <=? 90 then 2.96e-3 else 6.95e-3))
    /\ (pollutant <> pollutant_PM ->
        HEFGasolinePassengerCar pollutant speed class_Euro_3_GDI
          engine_capacity = Raise ValueError).
Proof.
  intros pollutant speed engine_capacity Hs.
  apply passes_speed_tests_true in Hs. destruct Hs as [H0 Hr].
  unfold HEFGasolinePassengerCar. cbv zeta. rewrite H0, Hr.
  split.
  - intros ->. cbv - [PrimFloat.leb]. case_tests; reflexivity.
  - intros Hp. destruct pollutant; try congruence; reflexivity.
Qed.

(** X5.  For a class from Euro 1 on and the pollutants FC and VOC, the
    tables of the passenger cars have no line: at a speed that passes
    the tests, both resolvers end with [IndexError], whatever the engine
    capacity. *)
Theorem passenger_car_Euro_FC_VOC_raises_IndexError :
  forall (pollutant : pollutant_t) (speed : float)
         (copert_class : copert_class_t) (engine_capacity : float),
    passes_speed_tests speed = true ->
    In copert_class global_class_index ->
    pollutant = pollutant_FC \/ pollutant = pollutant_VOC ->
    HEFGasolinePassengerCar pollutant speed copert_class engine_capacity
    = Raise IndexError
    /\ HEFDieselPassengerCar pollutant speed copert_class engine_capacity
       = Raise IndexError.
Proof.
  intros pollutant speed copert_class engine_capacity Hs Hc Hp.
  apply passes_speed_tests_true in Hs. destruct Hs as [H0 Hr].
  unfold HEFGasolinePassengerCar, HEFDieselPassengerCar. cbv zeta.
  in_cases Hc; destruct Hp as [-> | ->];
    cbn [class_eqb class_code Z.eqb]; rewrite H0, Hr;
    (split; [reflexivity | ]);
    cbv - [PrimFloat.ltb]; case_tests; reflexivity.
Qed.

(** X6.  For a diesel car of a class from Euro 1 on and one of the
    pollutants CO, HC, NOx and PM, at a speed that passes the tests:
    with an engine under 1.4 l and a class up to Euro 3 the call raises
    the error that names the pollutant and the class, an undefined
    combination; in every other case it returns a float. *)
Theorem diesel_Euro_small_engine :
  forall (pollutant : pollutant_t) (speed : float)
         (copert_class : copert_class_t) (engine_capacity : float),
    passes_speed_tests speed = true ->
    In copert_class global_class_index ->
    In pollutant [pollutant_CO; pollutant_HC; pollutant_NOx; pollutant_PM] ->
    if (engine_capacity <? 1.4)
       && (class_code copert_class <=? class_code class_Euro_3)%Z
    then
      HEFDieselPassengerCar pollutant speed copert_class engine_capacity
      = Raise (Exception
                 (msg_diesel_capacity_lower_1_4 pollutant copert_class))
      /\ kind_of (Exception
                    (msg_diesel_capacity_lower_1_4 pollutant copert_class))
         = UndefinedCombination
    else
      exists factor : float,
        HEFDieselPassengerCar pollutant speed copert_class engine_capacity
        = return_float factor.
Proof.
  intros pollutant speed copert_class engine_capacity Hs Hc Hp.
  apply passes_speed_tests_true in Hs. destruct Hs as [H0 Hr].
  unfold HEFDieselPassengerCar. cbv zeta.
  in_cases Hc; in_cases Hp;
    cbn [class_eqb class_code Z.eqb]; rewrite H0, Hr;
    cbn [class_code Z.leb Z.compare Pos.compare Pos.compare_cont andb];
    destruct (engine_capacity <? 1.4); cbn [andb];
    first [ split; reflexivity
          | cbv - [PrimFloat.ltb PrimFloat.add PrimFloat.mul PrimFloat.div
                   PrimFloat.opp pow math_exp math_log];
            case_tests; eexists; reflexivity ].
Qed.

(** X7.  For a diesel car of class Euro_4 and CO, at a speed that passes
    the tests, the factor is the one of the formula written in the
    function, whatever the engine capacity: the lines of NaN that the
    table holds for this class and pollutant are not used. *)
Theorem diesel_Euro_4_CO :
  forall (speed engine_capacity : float),
    passes_speed_tests speed = true ->
    HEFDieselPassengerCar pollutant_CO speed class_Euro_4 engine_capacity
    = return_float
        (17.5e-3
         + 86.42 * pow (1 + math_exp ((- (speed + 117.67)) / (-21.99)))
                     (-1)).
Proof.
  intros speed engine_capacity Hs.
  apply passes_speed_tests_true in Hs. destruct Hs as [H0 Hr].
  unfold HEFDieselPassengerCar. cbv zeta.
  cbn [class_eqb class_code Z.eqb]. rewrite H0, Hr.
  cbv - [PrimFloat.ltb PrimFloat.add PrimFloat.mul PrimFloat.div
         PrimFloat.opp pow math_exp math_log].
  case_tests; reflexivity.
Qed.


(** *** Missing keys and indices out of range *)

(** X8.  [HEFLightCommercialVehicle] ends with [KeyError] at every speed
    other than zero, whatever the engine type: for a pre-Euro class
    other than Improved Conventional, which the dictionary of the
    classes does not have; for HC and any class up to Euro 4, since
    [index_pollutant_pre_euro_4] has no key HC; for VOC and a class from
    Euro 5 on, since [index_pollutant] has no key VOC. *)
Theorem HEFLightCommercialVehicle_missing_keys :
  forall (self : Copert) (pollutant : pollutant_t) (speed : float)
         (engine_type : engine_type_t) (copert_class : copert_class_t),
    (speed =? 0) = false ->
    (is_pre_euro copert_class = true
     /\ copert_class <> class_Improved_Conventional)
    \/ (pollutant = pollutant_HC
        /\ (class_code copert_class <=? class_code class_Euro_4)%Z = true)
    \/ (pollutant = pollutant_VOC
        /\ (class_code class_Euro_5 <=? class_code copert_class)%Z = true) ->
    HEFLightCommercialVehicle self pollutant speed engine_type copert_class
    = Raise KeyError.
Proof.
  intros self pollutant speed engine_type copert_class H0 H.
  unfold HEFLightCommercialVehicle.
  cbn [HEFLightCommercialVehicle_depth]. rewrite H0.
  destruct H as [[Hc Hn] | [[-> Hc] | [-> Hc]]];
    destruct copert_class; try discriminate Hc; try congruence;
    try reflexivity;
    destruct pollutant; reflexivity.
Qed.

(** X9.  The arrays of the light commercial vehicles have the two engine
    types gasoline and diesel only: with any other engine type, at a
    speed other than zero, [HEFLightCommercialVehicle] returns no
    factor and ends with [KeyError] or [IndexError]. *)
Theorem HEFLightCommercialVehicle_other_engine_types :
  forall (self : Copert) (pollutant : pollutant_t) (speed : float)
         (engine_type : engine_type_t) (copert_class : copert_class_t),
    (speed =? 0) = false ->
    engine_type <> engine_type_gasoline ->
    engine_type <> engine_type_diesel ->
    HEFLightCommercialVehicle self pollutant speed engine_type copert_class
    = Raise KeyError
    \/ HEFLightCommercialVehicle self pollutant speed engine_type
         copert_class
       = Raise IndexError.
Proof.
  intros self pollutant speed engine_type copert_class H0 Hg Hd.
  unfold HEFLightCommercialVehicle.
  cbn [HEFLightCommercialVehicle_depth]. rewrite H0.
  destruct engine_type; try congruence;
    destruct copert_class, pollutant;
    solve [left; reflexivity | right; reflexivity].
Qed.

(** The codes of the enumerations are within the axes of
    [hdv_parameter]. *)
Lemma axis_in_range (n i : Z) :
  (0 <= i < n)%Z -> axis n i = Return i.
Proof.
  intros [Hlo Hhi]. unfold axis.
  destruct (i <? 0)%Z eqn:E; [apply Z.ltb_lt in E; lia | ].
  apply Z.leb_le in Hlo. apply Z.ltb_lt in Hhi.
  rewrite Hlo, Hhi. reflexivity.
Qed.

Lemma hdv_type_code_range (t : hdv_type_t) : (0 <= hdv_type_code t < 20)%Z.
Proof. destruct t; cbn; lia. Qed.

Lemma class_hdv_code_range (c : hdv_copert_class_t) :
  (0 <= class_hdv_code c < 8)%Z.
Proof. destruct c; cbn; lia. Qed.

Lemma hdv_load_code_range (l : hdv_load_t) : (0 <= hdv_load_code l < 3)%Z.
Proof. destruct l; cbn; lia. Qed.

Lemma slope_code_range (s : slope_t) : (0 <= slope_code s < 7)%Z.
Proof. destruct s; cbn; lia. Qed.

Lemma index_pollutant_range (p : pollutant_t) (k : Z) :
  index_pollutant p = Return k -> (0 <= k < 5)%Z.
Proof.
  destruct p; cbn; intros H; inversion H; lia.
Qed.

Lemma index_vehicle_type_range (v : vehicle_type_t) (i : Z) :
  index_vehicle_type v = Some i -> (0 <= i < 2)%Z.
Proof.
  destruct v; cbn; intros H; inversion H; lia.
Qed.

Lemma hdv_parameter_getitem_in_range (self : Copert)
  (vehicle_category : vehicle_type_t) (hdv_type : hdv_type_t)
  (hdv_copert_class : hdv_copert_class_t) (pollutant : pollutant_t)
  (load : hdv_load_t) (slope : slope_t) (i k : Z) :
  index_vehicle_type vehicle_category = Some i ->
  index_pollutant pollutant = Return k ->
  hdv_parameter_getitem self (index_vehicle_type vehicle_category)
    (hdv_type_code hdv_type) (class_hdv_code hdv_copert_class) k
    (hdv_load_code load) (slope_code slope)
  = Return (hdv_parameter self i (hdv_type_code hdv_type)
              (class_hdv_code hdv_copert_class) k (hdv_load_code load)
              (slope_code slope)).
Proof.
  intros Hi Hk. rewrite Hi. unfold hdv_parameter_getitem.
  rewrite (axis_in_range 2 i (index_vehicle_type_range _ _ Hi)).
  rewrite (axis_in_range 20 _ (hdv_type_code_range hdv_type)).
  rewrite (axis_in_range 8 _ (class_hdv_code_range hdv_copert_class)).
  rewrite (axis_in_range 5 k (index_pollutant_range _ _ Hk)).
  rewrite (axis_in_range 3 _ (hdv_load_code_range load)).
  rewrite (axis_in_range 7 _ (slope_code_range slope)).
  reflexivity.
Qed.

(** X10.  [HEFHeavyDutyVehicle] returns no factor for VOC, which
    [index_pollutant] does not have ([KeyError] on every call), nor for
    a vehicle category other than heavy duty vehicle and bus, whose
    index is [None]: the call then ends with [IndexError] or
    [ValueError]. *)
Theorem HEFHeavyDutyVehicle_without_line :
  forall (self : Copert) (speed : float) (vehicle_category : vehicle_type_t)
         (hdv_type : hdv_type_t) (hdv_copert_class : hdv_copert_class_t)
         (pollutant : pollutant_t) (load : hdv_load_t) (slope : slope_t),
    let factor := HEFHeavyDutyVehicle self speed vehicle_category hdv_type
                    hdv_copert_class pollutant load slope in
    (pollutant = pollutant_VOC -> factor = Raise KeyError)
    /\ (pollutant <> pollutant_VOC ->
        vehicle_category <> vehicle_type_heavy_duty_vehicle ->
        vehicle_category <> vehicle_type_bus ->
        factor = Raise IndexError \/ factor = Raise ValueError).
Proof.
  intros self speed vehicle_category hdv_type hdv_copert_class pollutant
    load slope factor.
  subst factor. unfold HEFHeavyDutyVehicle. cbv zeta. split.
  - intros ->. reflexivity.
  - intros Hp Hh Hb.
    destruct (index_pollutant pollutant) as [k | e] eqn:Ek;
      [ | destruct pollutant; try congruence; discriminate Ek ].
    cbn [bind].
    destruct vehicle_category; try congruence;
      cbn [index_vehicle_type hdv_parameter_getitem];
      (destruct (axis 2 (hdv_type_code hdv_type)) as [? | e] eqn:E1;
       [ | apply axis_raises in E1; subst e; left; reflexivity ]);
      rewrite (axis_in_range 20 (class_hdv_code hdv_copert_class))
        by (pose proof (class_hdv_code_range hdv_copert_class); lia);
      rewrite (axis_in_range 8 k)
        by (pose proof (index_pollutant_range _ _ Ek); lia);
      rewrite (axis_in_range 5 (hdv_load_code load))
        by (pose proof (hdv_load_code_range load); lia);
      cbn [bind];
      (destruct (axis 3 (slope_code slope)) as [? | e] eqn:E2;
       [ right; reflexivity
       | apply axis_raises in E2; subst e; left; reflexivity ]).
Qed.

(** The line a request for a heavy duty vehicle or a bus selects, and
    what the call does with it. *)
Lemma HEFHeavyDutyVehicle_selects_line :
  forall (self : Copert) (speed : float) (vehicle_category : vehicle_type_t)
         (hdv_type : hdv_type_t) (hdv_copert_class : hdv_copert_class_t)
         (pollutant : pollutant_t) (load : hdv_load_t) (slope : slope_t)
         (i k : Z) (a b c d e f g Vmin Vmax N_eq : float),
    index_vehicle_type vehicle_category = Some i ->
    index_pollutant pollutant = Return k ->
    hdv_parameter self i (hdv_type_code hdv_type)
      (class_hdv_code hdv_copert_class) k (hdv_load_code load)
      (slope_code slope)
    = (a, b, c, d, e, f, g, Vmin, Vmax, N_eq) ->
    HEFHeavyDutyVehicle self speed vehicle_category hdv_type
      hdv_copert_class pollutant load slope
    = if 0 <=? N_eq then
        n <- int_of_float N_eq ;;
        equation <- getitem list_equation_hdv n ;;
        return_float
          (equation a b c d e f g (py_min (py_max Vmin speed) Vmax))
      else Raise (Exception msg_hdv_no_formula).
Proof.
  intros self speed vehicle_category hdv_type hdv_copert_class pollutant
    load slope i k a b c d e f g Vmin Vmax N_eq Hi Hk Hline.
  unfold HEFHeavyDutyVehicle. cbv zeta.
  rewrite Hk. cbn [bind].
  rewrite (hdv_parameter_getitem_in_range self vehicle_category hdv_type
             hdv_copert_class pollutant load slope i k Hi Hk).
  rewrite Hline. reflexivity.
Qed.

(** X11.  For a heavy duty vehicle or a bus and a pollutant other than
    VOC, every request selects a line of [hdv_parameter], within the
    bounds of the array.  The call raises the error on a missing
    formula when the test [N_eq >= 0] on the line fails, as on a line of
    NaN; otherwise it applies the equation of index [int(N_eq)] to the
    coefficients of the line at the speed clamped into
    [Vmin, Vmax]. *)
Theorem HEFHeavyDutyVehicle_on_line :
  forall (self : Copert) (speed : float) (vehicle_category : vehicle_type_t)
         (hdv_type : hdv_type_t) (hdv_copert_class : hdv_copert_class_t)
         (pollutant : pollutant_t) (load : hdv_load_t) (slope : slope_t)
         (i k : Z) (a b c d e f g Vmin Vmax N_eq : float),
    index_vehicle_type vehicle_category = Some i ->
    index_pollutant pollutant = Return k ->
    hdv_parameter self i (hdv_type_code hdv_type)
      (class_hdv_code hdv_copert_class) k (hdv_load_code load)
      (slope_code slope)
    = (a, b, c, d, e, f, g, Vmin, Vmax, N_eq) ->
    HEFHeavyDutyVehicle self speed vehicle_category hdv_type
      hdv_copert_class pollutant load slope
    = if 0 <=? N_eq then
        n <- int_of_float N_eq ;;
        equation <- getitem list_equation_hdv n ;;
        return_float
          (equation a b c d e f g (py_min (py_max Vmin speed) Vmax))
      else Raise (Exception msg_hdv_no_formula).
Proof.
  intros self speed vehicle_category hdv_type hdv_copert_class pollutant
    load slope i k a b c d e f g Vmin Vmax N_eq Hi Hk Hline.
  apply (HEFHeavyDutyVehicle_selects_line self speed vehicle_category
           hdv_type hdv_copert_class pollutant load slope i k a b c d e f g
           Vmin Vmax N_eq Hi Hk Hline).
Qed.

(** *** The clamped speed *)

Lemma SFcompare_refl (x : spec_float) :
  SFcompare x x = match x with S754_nan => None | _ => Some Eq end.
Proof.
  destruct x as [s | s | | s m e]; try (destruct s; reflexivity);
    try reflexivity.
  destruct s; simpl; rewrite Z.compare_refl;
    change PosDef.Pos.compare_cont with Pos.compare_cont;
    fold (Pos.compare m m); rewrite Pos.compare_refl; reflexivity.
Qed.

Lemma SFcompare_None (x y : spec_float) :
  SFcompare x y = None -> x = S754_nan \/ y = S754_nan.
Proof.
  destruct x as [s | s | | s m e], y as [t | t | | t n k]; simpl;
    auto; discriminate.
Qed.

Lemma leb_refl_l (x y : float) : (x <=? y) = true -> (x <=? x) = true.
Proof.
  rewrite !leb_spec. unfold SFleb. rewrite SFcompare_refl.
  destruct (Prim2SF x); try reflexivity. simpl. discriminate.
Qed.

Lemma leb_refl_r (x y : float) : (x <=? y) = true -> (y <=? y) = true.
Proof.
  rewrite !leb_spec. unfold SFleb. rewrite (SFcompare_refl (Prim2SF y)).
  destruct (Prim2SF y); try reflexivity.
  destruct (Prim2SF x); simpl; discriminate.
Qed.

Lemma ltb_leb (x y : float) : (x <? y) = true -> (x <=? y) = true.
Proof.
  rewrite ltb_spec, leb_spec. unfold SFltb, SFleb.
  destruct (SFcompare (Prim2SF x) (Prim2SF y)) as [[ | | ] | ];
    congruence.
Qed.

(** Between two values that are not NaN, [y < x] false gives
    [x <= y]. *)
Lemma not_ltb_leb (x y lo hi : float) :
  (lo <? x) = true -> (hi <=? y) = true -> (y <? x) = false ->
  (x <=? y) = true.
Proof.
  rewrite !ltb_spec, !leb_spec. unfold SFltb, SFleb.
  intros Hx Hy Hlt.
  rewrite (SFcompare_antisym (Prim2SF y) (Prim2SF x)).
  destruct (SFcompare (Prim2SF y) (Prim2SF x)) as [[ | | ] | ] eqn:E;
    simpl; try reflexivity; try discriminate Hlt.
  apply SFcompare_None in E. destruct E as [E | E]; rewrite E in *.
  - destruct (Prim2SF hi); discriminate Hy.
  - destruct (Prim2SF lo); discriminate Hx.
Qed.

(** X12.  With [Vmin <= Vmax], the speed [min(max(Vmin, speed), Vmax)]
    used by the resolvers lies in [Vmin, Vmax] for every speed, a NaN
    included, which is taken to [Vmin]. *)
Theorem clamped_speed_in_range :
  forall (Vmin Vmax speed : float),
    (Vmin <=? Vmax) = true ->
    (Vmin <=? py_min (py_max Vmin speed) Vmax) = true
    /\ (py_min (py_max Vmin speed) Vmax <=? Vmax) = true
    /\ py_min (py_max Vmin nan) Vmax = Vmin.
Proof.
  intros Vmin Vmax speed H.
  assert (Hnan : py_min (py_max Vmin nan) Vmax = Vmin).
  { unfold py_min, py_max.
    assert (E : (Vmin <? nan) = false).
    { rewrite ltb_spec. change (Prim2SF nan) with S754_nan.
      unfold SFltb. destruct (Prim2SF Vmin); reflexivity. }
    rewrite E. rewrite (leb_ltb_false _ _ H). reflexivity. }
  split; [ | split; [ | exact Hnan]]; unfold py_min, py_max.
  - destruct (Vmin <? speed) eqn:E1.
    + destruct (Vmax <? speed) eqn:E2; [exact H | apply ltb_leb, E1].
    + rewrite (leb_ltb_false _ _ H). apply (leb_refl_l _ _ H).
  - destruct (Vmin <? speed) eqn:E1.
    + destruct (Vmax <? speed) eqn:E2.
      * apply (leb_refl_r _ _ H).
      * apply (not_ltb_leb speed Vmax Vmin Vmin E1 H E2).
    + rewrite (leb_ltb_false _ _ H). exact H.
Qed.

(** *** A NaN among the coefficients of a line *)









(** *** [None] met by [Emission] *)

(** X18.  When the resolver of a passenger car returns [None],
    [Emission] multiplies the distance by it and ends with [TypeError]:
    at a speed that passes the tests and for a pre-Euro class, this is
    the case of a gasoline car with HC, PM or FC, when the test on its
    engine capacity passes, and of a diesel car with HC. *)
Theorem Emission_raises_TypeError :
  forall (self : Copert) (pollutant : pollutant_t) (speed distance : float)
         (copert_class : copert_class_t)
         (engine_capacity ambient_temperature : float),
    passes_speed_tests speed = true ->
    is_pre_euro copert_class = true ->
    (gasoline_capacity_accepted copert_class engine_capacity = true ->
     pollutant = pollutant_HC \/ pollutant = pollutant_PM
     \/ pollutant = pollutant_FC ->
     Emission self pollutant speed distance vehicle_type_passenger_car
       engine_type_gasoline copert_class engine_capacity ambient_temperature
     = Raise TypeError)
    /\ (pollutant = pollutant_HC ->
        Emission self pollutant speed distance vehicle_type_passenger_car
          engine_type_diesel copert_class engine_capacity
          ambient_temperature
        = Raise TypeError).
Proof.
  intros self pollutant speed distance copert_class engine_capacity
    ambient_temperature Hs Hc.
  apply passes_speed_tests_true in Hs. destruct Hs as [H0 Hr].
  unfold Emission, HEFGasolinePassengerCar, HEFDieselPassengerCar.
  cbv zeta. split.
  - intros Hcap Hp. rewrite H0, Hr.
    destruct copert_class; try discriminate Hc;
      cbn [gasoline_capacity_accepted] in Hcap;
      (destruct (engine_capacity <? 0.8); [discriminate Hcap | ]);
      try (destruct (2.0 <? engine_capacity); [discriminate Hcap | ]);
      cbn [orb]; destruct Hp as [-> | [-> | ->]]; reflexivity.
  - intros ->.
    destruct copert_class; try discriminate Hc;
      cbn [class_eqb class_code Z.eqb]; rewrite H0, Hr; reflexivity.
Qed.
End More_properties.

(** ** Properties of the constructor *)

(** *** Strings *)

Lemma str_index_app_found (c : ascii) (k t : string) :
  str_index c k = None ->
  str_index c (k ++ String c t) = Some (Z.of_nat (String.length k)).
Proof.
  induction k as [ | c' k IH]; cbn [str_index append String.length].
  - intros _. rewrite Ascii.eqb_refl. reflexivity.
  - destruct (Ascii.eqb c' c); [discriminate | ].
    destruct (str_index c k); [discriminate | ].
    intros _. rewrite (IH eq_refl). cbn [option_map].
    f_equal. lia.
Qed.

Lemma str_index_app_skip (c c' : ascii) (k t : string) :
  str_index c k = None -> Ascii.eqb c' c = false ->
  str_index c (k ++ String c' t)
  = option_map (fun i => (Z.of_nat (String.length k) + 1 + i)%Z)
      (str_index c t).
Proof.
  intros Hk Hc. induction k as [ | d k IH];
    cbn [str_index append String.length].
  - rewrite Hc. destruct (str_index c t); cbn [option_map]; [ | reflexivity].
    f_equal. lia.
  - cbn [str_index] in Hk. destruct (Ascii.eqb d c); [discriminate | ].
    destruct (str_index c k); [discriminate | ].
    rewrite (IH eq_refl). destruct (str_index c t); cbn [option_map];
      [ | reflexivity].
    f_equal. lia.
Qed.

Lemma substring_app (k t : string) :
  substring 0 (String.length k) (k ++ t) = k.
Proof.
  induction k as [ | c k IH]; cbn [String.length append substring].
  - destruct t; reflexivity.
  - rewrite IH. reflexivity.
Qed.

Lemma length_app (k t : string) :
  String.length (k ++ t) = (String.length k + String.length t)%nat.
Proof.
  induction k as [ | c k IH]; cbn [String.length append]; [reflexivity | ].
  rewrite IH. reflexivity.
Qed.

Lemma app_assoc (k t u : string) : ((k ++ t) ++ u = k ++ (t ++ u))%string.
Proof.
  induction k as [ | c k IH]; cbn [append]; [reflexivity | ].
  rewrite IH. reflexivity.
Qed.

Lemma str_until_app (k t : string) :
  str_until (k ++ t) (Z.of_nat (String.length k)) = k.
Proof.
  unfold str_until. cbv zeta.
  destruct (Z.of_nat (String.length k) <? 0)%Z eqn:E;
    [apply Z.ltb_lt in E; lia | ].
  rewrite length_app.
  replace (Z.to_nat (Z.min _ _)) with (String.length k) by lia.
  apply substring_app.
Qed.

Lemma app_inj_l (k k' : string) (c : ascii) :
  (k ++ String c EmptyString = k' ++ String c EmptyString)%string -> k = k'.
Proof.
  revert k'. induction k as [ | d k IH]; intros [ | d' k'];
    cbn [append]; intros H.
  - reflexivity.
  - injection H as _ H. destruct k'; discriminate H.
  - injection H as _ H. destruct k; discriminate H.
  - injection H as -> H. f_equal. apply IH, H.
Qed.

(** *** The technology of a line *)

Local Open Scope string_scope.

Lemma hdv_tech_of_no_dash (field : string) :
  str_index "-" field = None -> hdv_tech_of field = field.
Proof.
  unfold hdv_tech_of. intros ->. reflexivity.
Qed.

Lemma hdv_tech_of_suffix (tech rest : string) :
  str_index "-" tech = None ->
  tech <> "HD Euro V" ->
  hdv_tech_of (tech ++ " -" ++ rest) = tech.
Proof.
  intros Hk Hn. unfold hdv_tech_of.
  change (tech ++ " -" ++ rest) with (tech ++ String " " (String "-" rest)).
  rewrite (str_index_app_skip "-" " " tech (String "-" rest) Hk eq_refl).
  cbn [str_index]. rewrite Ascii.eqb_refl. cbn [option_map].
  replace (Z.of_nat (String.length tech) + 1 + 0)%Z
    with (Z.of_nat (String.length (tech ++ " "))) by (rewrite length_app; cbn; lia).
  change (tech ++ String " " (String "-" rest))
    with (tech ++ " " ++ String "-" rest).
  rewrite <- app_assoc. rewrite str_until_app.
  destruct (String.eqb_spec (tech ++ " ") "HD Euro V ") as [E | E].
  - exfalso. apply Hn. apply (app_inj_l tech "HD Euro V" " "). exact E.
  - cbn [negb]. rewrite app_assoc, length_app.
    replace (Z.of_nat (String.length tech + String.length " ") - 1)%Z
      with (Z.of_nat (String.length tech)) by (cbn; lia).
    apply str_until_app.
Qed.

Lemma hdv_tech_of_Euro_V (rest : string) :
  hdv_tech_of ("HD Euro V -" ++ rest) = "HD Euro V -" ++ rest.
Proof.
  unfold hdv_tech_of.
  change ("HD Euro V -" ++ rest) with ("HD Euro V " ++ String "-" rest).
  rewrite (str_index_app_found "-" "HD Euro V " rest eq_refl).
  rewrite str_until_app. reflexivity.
Qed.

(** X14.  The technology of a line of the file of the heavy duty
    vehicles is read back as its class from every label of [corr_tech]:
    from the label alone, and from a label without dash followed by a
    space, a dash and any text, which the constructor drops; the two
    labels of Euro V are kept with what follows their dash. *)
Theorem hdv_tech_of_labels :
  forall (label : string) (class : hdv_copert_class_t),
    In (label, class) corr_tech ->
    dict_get corr_tech (hdv_tech_of label) = Return class
    /\ (str_index "-" label = None ->
        forall rest : string,
          dict_get corr_tech (hdv_tech_of (label ++ " -" ++ rest))
          = Return class)
    /\ (forall rest : string,
           hdv_tech_of ("HD Euro V -" ++ rest) = "HD Euro V -" ++ rest).
Proof.
  intros label class Hin.
  split; [ | split].
  - unfold corr_tech in Hin.
    repeat (destruct Hin as [Hin | Hin]; [injection Hin as <- <-; reflexivity | ]).
    destruct Hin.
  - intros Hd rest. rewrite hdv_tech_of_suffix.
    + unfold corr_tech in Hin.
      repeat (destruct Hin as [Hin | Hin];
              [injection Hin as <- <-; reflexivity | ]).
      destruct Hin.
    + exact Hd.
    + intros ->. unfold corr_tech in Hin.
      repeat (destruct Hin as [Hin | Hin]; [discriminate Hin | ]).
      destruct Hin.
  - apply hdv_tech_of_Euro_V.
Qed.

Local Close Scope string_scope.

(** *** Lines and fields *)

Lemma split_not_nil (sep : ascii) (s : string) : split sep s <> [].
Proof.
  induction s as [ | c s IH]; cbn [split]; [discriminate | ].
  destruct (Ascii.eqb c sep); [discriminate | ].
  destruct (split sep s); discriminate.
Qed.

Lemma split_no_sep (sep : ascii) (s : string) :
  str_index sep s = None -> split sep s = [s].
Proof.
  induction s as [ | c s IH]; cbn [split str_index]; [reflexivity | ].
  destruct (Ascii.eqb c sep); [discriminate | ].
  destruct (str_index sep s); [discriminate | ].
  intros _. rewrite (IH eq_refl). reflexivity.
Qed.

Lemma split_app_sep (sep : ascii) (word rest : string) :
  str_index sep word = None ->
  split sep (word ++ String sep rest) = word :: split sep rest.
Proof.
  induction word as [ | c word IH]; cbn [split str_index append].
  - intros _. rewrite Ascii.eqb_refl. reflexivity.
  - destruct (Ascii.eqb c sep); [discriminate | ].
    destruct (str_index sep word); [discriminate | ].
    intros _. rewrite (IH eq_refl). reflexivity.
Qed.

Lemma str_index_app_none (c : ascii) (k t : string) :
  str_index c k = None -> str_index c t = None ->
  str_index c (k ++ t) = None.
Proof.
  intros Hk Ht. induction k as [ | d k IH]; cbn [str_index append];
    [exact Ht | ].
  cbn [str_index] in Hk. destruct (Ascii.eqb d c); [discriminate | ].
  destruct (str_index c k); [discriminate | ].
  rewrite (IH eq_refl). reflexivity.
Qed.

Lemma lstrip_length (s : string) :
  (String.length (lstrip s) <= String.length s)%nat.
Proof.
  induction s as [ | c s IH]; cbn [lstrip String.length]; [lia | ].
  destruct (is_whitespace c); cbn [String.length]; lia.
Qed.

Lemma rstrip_length (s : string) :
  (String.length (rstrip s) <= String.length s)%nat.
Proof.
  induction s as [ | c s IH]; cbn [rstrip String.length]; [lia | ].
  destruct (rstrip s) as [ | c' r].
  - destruct (is_whitespace c); cbn [String.length]; lia.
  - cbn [String.length] in *. lia.
Qed.

Lemma rstrip_app_newline (s : string) :
  rstrip (s ++ String (ascii_of_nat 10) EmptyString) = rstrip s.
Proof.
  induction s as [ | c s IH]; cbn [rstrip append]; [reflexivity | ].
  rewrite IH. reflexivity.
Qed.

Lemma strip_app_newline (s : string) :
  strip s = s -> strip (s ++ String (ascii_of_nat 10) EmptyString) = s.
Proof.
  destruct s as [ | c s]; [reflexivity | ].
  unfold strip. intros H. cbn [append lstrip] in *.
  destruct (is_whitespace c).
  - exfalso.
    pose proof (rstrip_length (lstrip s)) as H1.
    pose proof (lstrip_length s) as H2.
    rewrite H in H1. cbn [String.length] in H1. lia.
  - change (String c (s ++ String (ascii_of_nat 10) EmptyString))
      with (String c s ++ String (ascii_of_nat 10) EmptyString)%string.
    rewrite rstrip_app_newline. exact H.
Qed.

(** The fields of a line, read back by [split] and [strip]. *)
Lemma line_split_of_fields (fields : list string) :
  fields <> [] -> Forall clean_field fields ->
  map strip (split "," (line_of_fields fields)) = fields.
Proof.
  unfold line_of_fields.
  induction fields as [ | field fields IH]; [congruence | ].
  intros _ Hclean. inversion Hclean as [ | ? ? [Hcomma Hstrip] Hrest]; subst.
  destruct fields as [ | field' fields].
  - cbn [String.concat].
    rewrite split_no_sep by (apply str_index_app_none; [exact Hcomma | reflexivity]).
    cbn [map]. rewrite (strip_app_newline _ Hstrip). reflexivity.
  - cbn [String.concat]. fold (String.concat "," (field' :: fields)).
    rewrite app_assoc. cbn [append].
    rewrite (split_app_sep "," field _ Hcomma).
    cbn [map]. rewrite Hstrip. f_equal.
    apply IH; [discriminate | exact Hrest].
Qed.

(** *** Reading a line of the file of the heavy duty vehicles *)

Lemma dict_get_In {A : Type} (d : list (string * A)) (key : string) (v : A) :
  dict_get d key = Return v -> In (key, v) d.
Proof.
  induction d as [ | [k w] d IH]; cbn [dict_get]; [discriminate | ].
  destruct (String.eqb_spec k key) as [-> | _].
  - intros H. injection H as ->. left. reflexivity.
  - intros H. right. apply IH, H.
Qed.

Lemma map_result_length {A B : Type} (f : A -> result B) (l : list A)
  (r : list B) :
  map_result f l = Return r -> List.length l = List.length r.
Proof.
  revert r. induction l as [ | x l IH]; cbn [map_result]; intros r H.
  - injection H as <-. reflexivity.
  - destruct (f x) as [y | ]; [ | discriminate H]. cbn [bind] in H.
    destruct (map_result f l) as [ys | ]; [ | discriminate H].
    cbn [bind] in H. injection H as <-. cbn [List.length].
    rewrite (IH ys eq_refl). reflexivity.
Qed.

Section Constructor_properties.

Context {conversion : Float_of_string} {libm : Libm}.

(** X15.  A line of the file of the heavy duty vehicles made of clean
    fields, with labels that the correspondences have and ten values
    that convert to floats, is stored by [read_hdv_line] at the indices
    of its labels; the other lines of the array are left as they were,
    and [HEFHeavyDutyVehicle] then answers the request of these labels
    from the values of the line. *)
Theorem read_hdv_line_stores :
  forall (array : hdv_array) (f0 f1 f2 f3 f4 f5 f6 f7 : string)
         (values : list string) (vehicle_category : vehicle_type_t)
         (hdv_type : hdv_type_t) (tech : hdv_copert_class_t)
         (pollutant : pollutant_t) (load : hdv_load_t) (slope : slope_t)
         (a b c d e f g Vmin Vmax N_eq : float),
    Forall clean_field ([f0; f1; f2; f3; f4; f5; f6; f7] ++ values) ->
    f0 <> "Type"%string ->
    dict_get corr_hdv_or_bus f0 = Return vehicle_category ->
    dict_get corr_hdv_type f1 = Return hdv_type ->
    dict_get corr_tech (hdv_tech_of f3) = Return tech ->
    dict_get corr_pollutant f4 = Return pollutant ->
    dict_get corr_load f5 = Return load ->
    dict_get corr_slope f6 = Return slope ->
    map_result float_of_string values
    = Return [a; b; c; d; e; f; g; Vmin; Vmax; N_eq] ->
    exists (array' : hdv_array) (i k : Z),
      read_hdv_line array
        (line_of_fields ([f0; f1; f2; f3; f4; f5; f6; f7] ++ values))
      = Return array'
      /\ index_vehicle_type vehicle_category = Some i
      /\ index_pollutant pollutant = Return k
      /\ array' i (hdv_type_code hdv_type) (class_hdv_code tech) k
           (hdv_load_code load) (slope_code slope)
         = (a, b, c, d, e, f, g, Vmin, Vmax, N_eq)
      /\ (forall i' j' k' l' m' n' : Z,
             (i', j', k', l', m', n')
             <> (i, hdv_type_code hdv_type, class_hdv_code tech, k,
                 hdv_load_code load, slope_code slope) ->
             array' i' j' k' l' m' n' = array i' j' k' l' m' n')
      /\ (forall (ldv : ldv_array) (speed : float),
             HEFHeavyDutyVehicle
               {| ldv_parameter := ldv; hdv_parameter := array' |}
               speed vehicle_category hdv_type tech pollutant load slope
             = if 0 <=? N_eq then
                 n <- int_of_float N_eq ;;
                 equation <- getitem list_equation_hdv n ;;
                 return_float
                   (equation a b c d e f g
                      (py_min (py_max Vmin speed) Vmax))
               else Raise (Exception msg_hdv_no_formula)).
Proof.
  intros array f0 f1 f2 f3 f4 f5 f6 f7 values vehicle_category hdv_type tech
    pollutant load slope a b c d e f g Vmin Vmax N_eq
    Hclean Hhead Hcat Htype Htech Hpol Hload Hslope Hvalues.
  assert (Hi : exists i, index_vehicle_type vehicle_category = Some i).
  { apply dict_get_In in Hcat. unfold corr_hdv_or_bus in Hcat.
    destruct Hcat as [Hcat | [Hcat | []]]; injection Hcat as _ <-;
      eexists; reflexivity. }
  destruct Hi as [i Hi].
  assert (Hk : exists k, index_pollutant pollutant = Return k).
  { apply dict_get_In in Hpol. unfold corr_pollutant in Hpol.
    repeat (destruct Hpol as [Hpol | Hpol];
            [injection Hpol as _ <-; eexists; reflexivity | ]).
    destruct Hpol. }
  destruct Hk as [k Hk].
  assert (Hlen : List.length values = 10%nat)
    by apply (map_result_length _ _ _ Hvalues).
  assert (Hread :
            read_hdv_line array
              (line_of_fields ([f0; f1; f2; f3; f4; f5; f6; f7] ++ values))
            = hdv_array_set array (Some i) (hdv_type_code hdv_type)
                (class_hdv_code tech) k (hdv_load_code load)
                (slope_code slope) (a, b, c, d, e, f, g, Vmin, Vmax, N_eq)).
  { unfold read_hdv_line. cbv zeta.
    rewrite line_split_of_fields by (exact Hclean || discriminate).
    change (getitem ([f0; f1; f2; f3; f4; f5; f6; f7] ++ values) 0)
      with (Return f0).
    cbn [bind]. rewrite (proj2 (String.eqb_neq f0 "Type"%string) Hhead).
    change (getitem ([f0; f1; f2; f3; f4; f5; f6; f7] ++ values) 3)
      with (Return f3).
    cbn [bind]. rewrite Hcat. cbn [bind]. rewrite Hi.
    change (getitem ([f0; f1; f2; f3; f4; f5; f6; f7] ++ values) 1)
      with (Return f1).
    cbn [bind]. rewrite Htype. cbn [bind]. rewrite Htech. cbn [bind].
    change (getitem ([f0; f1; f2; f3; f4; f5; f6; f7] ++ values) 4)
      with (Return f4).
    cbn [bind]. rewrite Hpol. cbn [bind]. rewrite Hk. cbn [bind].
    change (getitem ([f0; f1; f2; f3; f4; f5; f6; f7] ++ values) 5)
      with (Return f5).
    cbn [bind]. rewrite Hload. cbn [bind].
    change (getitem ([f0; f1; f2; f3; f4; f5; f6; f7] ++ values) 6)
      with (Return f6).
    cbn [bind]. rewrite Hslope. cbn [bind].
    replace (slice ([f0; f1; f2; f3; f4; f5; f6; f7] ++ values) 8 18)
      with values
      by (unfold slice; cbn [skipn app Nat.sub];
          rewrite <- Hlen, firstn_all; reflexivity).
    rewrite Hvalues. reflexivity. }
  unfold hdv_array_set in Hread.
  rewrite (axis_in_range 2 i (index_vehicle_type_range _ _ Hi)) in Hread.
  rewrite (axis_in_range 20 _ (hdv_type_code_range hdv_type)) in Hread.
  rewrite (axis_in_range 8 _ (class_hdv_code_range tech)) in Hread.
  rewrite (axis_in_range 5 k (index_pollutant_range _ _ Hk)) in Hread.
  rewrite (axis_in_range 3 _ (hdv_load_code_range load)) in Hread.
  rewrite (axis_in_range 7 _ (slope_code_range slope)) in Hread.
  cbn [bind] in Hread.
  eexists. exists i, k.
  split; [exact Hread | ].
  split; [exact Hi | ].
  split; [exact Hk | ].
  assert (Hstored :
            (fun i' j' k' l' m' n' : Z =>
               if ((i' =? i) && (j' =? hdv_type_code hdv_type)
                   && (k' =? class_hdv_code tech) && (l' =? k)
                   && (m' =? hdv_load_code load)
                   && (n' =? slope_code slope))%Z
               then (a, b, c, d, e, f, g, Vmin, Vmax, N_eq)
               else array i' j' k' l' m' n')
              i (hdv_type_code hdv_type) (class_hdv_code tech) k
              (hdv_load_code load) (slope_code slope)
            = (a, b, c, d, e, f, g, Vmin, Vmax, N_eq)).
  { cbv beta. rewrite !Z.eqb_refl. reflexivity. }
  split; [exact Hstored | ].
  split.
  - intros i' j' k' l' m' n' Hne. cbv beta.
    destruct (i' =? i)%Z eqn:E1; [ | reflexivity].
    destruct (j' =? hdv_type_code hdv_type)%Z eqn:E2; [ | reflexivity].
    destruct (k' =? class_hdv_code tech)%Z eqn:E3; [ | reflexivity].
    destruct (l' =? k)%Z eqn:E4; [ | reflexivity].
    destruct (m' =? hdv_load_code load)%Z eqn:E5; [ | reflexivity].
    destruct (n' =? slope_code slope)%Z eqn:E6; [ | reflexivity].
    exfalso. apply Hne.
    apply Z.eqb_eq in E1, E2, E3, E4, E5, E6. congruence.
  - intros ldv speed.
    apply (HEFHeavyDutyVehicle_selects_line _ speed vehicle_category hdv_type tech
             pollutant load slope i k a b c d e f g Vmin Vmax N_eq Hi Hk).
    exact Hstored.
Qed.


(** *** The lines the constructor writes for light commercial vehicles *)







(** X17.  With files that hold their line of titles only, or no line at
    all, the constructor leaves both arrays filled with NaN; on that
    object every request for a heavy duty vehicle or a bus with a
    pollutant other than VOC raises the error on a missing formula. *)
Theorem constructor_without_data :
  forall (ldv_titles hdv_titles : string),
    __init__ [("Sector," ++ ldv_titles)%string]
      [("Type," ++ hdv_titles)%string] = Return copert_no_line
    /\ __init__ [] [] = Return copert_no_line
    /\ (forall (speed : float) (vehicle_category : vehicle_type_t)
               (hdv_type : hdv_type_t)
               (hdv_copert_class : hdv_copert_class_t)
               (pollutant : pollutant_t) (load : hdv_load_t)
               (slope : slope_t),
           vehicle_category = vehicle_type_heavy_duty_vehicle
           \/ vehicle_category = vehicle_type_bus ->
           pollutant <> pollutant_VOC ->
           HEFHeavyDutyVehicle copert_no_line speed vehicle_category
             hdv_type hdv_copert_class pollutant load slope
           = Raise (Exception msg_hdv_no_formula)).
Proof.
  intros ldv_titles hdv_titles.
  split; [ | split; [reflexivity | ]].
  - unfold __init__, read_lines, read_ldv_line, read_hdv_line. cbv zeta.
    change ("Sector," ++ ldv_titles)%string
      with ("Sector" ++ String "," ldv_titles)%string.
    change ("Type," ++ hdv_titles)%string
      with ("Type" ++ String "," hdv_titles)%string.
    rewrite !split_app_sep by reflexivity.
    reflexivity.
  - intros speed vehicle_category hdv_type hdv_copert_class pollutant load
      slope Hv Hp.
    assert (Hi : exists i, index_vehicle_type vehicle_category = Some i)
      by (destruct Hv as [-> | ->]; eexists; reflexivity).
    destruct Hi as [i Hi].
    assert (Hk : exists k, index_pollutant pollutant = Return k)
      by (destruct pollutant; try congruence; eexists; reflexivity).
    destruct Hk as [k Hk].
    rewrite (HEFHeavyDutyVehicle_selects_line copert_no_line speed
               vehicle_category hdv_type hdv_copert_class pollutant load
               slope i k nan nan nan nan nan nan nan nan nan nan Hi Hk
               eq_refl).
    reflexivity.
Qed.


(** *** A blank line *)

Lemma read_lines_raises {A : Type} (read : A -> string -> result A)
  (blank : string) (lines : list string) :
  (forall array : A, exists e : exn, read array blank = Raise e) ->
  In blank lines ->
  forall array : A, exists e : exn, read_lines read array lines = Raise e.
Proof.
  intros Hblank. induction lines as [ | line lines IH]; [intros [] | ].
  intros [-> | Hin] array; cbn [read_lines].
  - destruct (Hblank array) as [e ->]. exists e. reflexivity.
  - destruct (read array line) as [array' | e]; [ | exists e; reflexivity].
    cbn [bind]. apply (IH Hin).
Qed.

(** X19.  A line without comma that holds nothing but whitespace, such
    as an empty last line, has one field only, which is not the title:
    both loops end on it with [IndexError], and the constructor fails on
    every file of light commercial vehicles that has such a line. *)
Theorem constructor_blank_line :
  forall (blank : string),
    str_index "," blank = None ->
    strip blank = EmptyString ->
    (forall array : ldv_array, read_ldv_line array blank = Raise IndexError)
    /\ (forall array : hdv_array,
           read_hdv_line array blank = Raise IndexError)
    /\ (forall ldv_parameter_file hdv_parameter_file : list string,
           In blank ldv_parameter_file ->
           exists e : exn,
             __init__ ldv_parameter_file hdv_parameter_file = Raise e).
Proof.
  intros blank Hcomma Hstrip.
  assert (Hl : forall array : ldv_array,
             read_ldv_line array blank = Raise IndexError).
  { intros array. unfold read_ldv_line. cbv zeta.
    rewrite (split_no_sep _ _ Hcomma). cbn [map]. rewrite Hstrip.
    reflexivity. }
  split; [exact Hl | split].
  - intros array. unfold read_hdv_line. cbv zeta.
    rewrite (split_no_sep _ _ Hcomma). cbn [map]. rewrite Hstrip.
    reflexivity.
  - intros ldv_parameter_file hdv_parameter_file Hin.
    unfold __init__.
    destruct (read_lines_raises read_ldv_line blank ldv_parameter_file
                (fun array => ex_intro _ IndexError (Hl array)) Hin
                ldv_array_nan) as [e ->].
    exists e. reflexivity.
Qed.

End Constructor_properties.

(** ** The further properties at concrete inputs *)

(** X1 for HC, class ECE_15_02, an engine of 1.0 l, at 50 km/h. *)
Lemma HEFGasolinePassengerCar_returns_None_iff_witness :
  HEFGasolinePassengerCar (libm := libm_series) pollutant_HC 50
    class_ECE_15_02 1.0 = return_None.
Proof.
  apply (proj2 (@HEFGasolinePassengerCar_returns_None_iff libm_series
                  pollutant_HC 50 class_ECE_15_02 1.0)).
  split; [reflexivity | ].
  split; [reflexivity | ].
  split; [reflexivity | left; reflexivity].
Defined.

(** X2 for HC, class ECE_15_02, at 50 km/h. *)
Lemma HEFDieselPassengerCar_returns_None_iff_witness :
  HEFDieselPassengerCar (libm := libm_series) pollutant_HC 50
    class_ECE_15_02 1.0 = return_None.
Proof.
  apply (proj2 (@HEFDieselPassengerCar_returns_None_iff libm_series
                  pollutant_HC 50 class_ECE_15_02 1.0)).
  split; [reflexivity | split; reflexivity].
Defined.

(** X4 for NOx, and for PM at 70 km/h. *)
Lemma gasoline_Euro_3_GDI_only_PM_witness :
  passes_speed_tests 70 = true
  /\ HEFGasolinePassengerCar (libm := libm_series) pollutant_PM 70
       class_Euro_3_GDI 1.6 = return_float 2.96e-3
  /\ HEFGasolinePassengerCar (libm := libm_series) pollutant_NOx 70
       class_Euro_3_GDI 1.6 = Raise ValueError.
Proof.
  split; [reflexivity | ].
  split.
  - apply (@gasoline_Euro_3_GDI_only_PM libm_series pollutant_PM 70 1.6);
      reflexivity.
  - apply (@gasoline_Euro_3_GDI_only_PM libm_series pollutant_NOx 70 1.6);
      [reflexivity | discriminate].
Defined.

(** X5 for FC, class Euro_4, at 50 km/h. *)
Lemma passenger_car_Euro_FC_VOC_raises_IndexError_witness :
  passes_speed_tests 50 = true
  /\ In class_Euro_4 global_class_index
  /\ HEFGasolinePassengerCar (libm := libm_series) pollutant_FC 50
       class_Euro_4 1.6 = Raise IndexError
  /\ HEFDieselPassengerCar (libm := libm_series) pollutant_FC 50
       class_Euro_4 1.6 = Raise IndexError.
Proof.
  split; [reflexivity | ].
  split; [cbn; tauto | ].
  apply (@passenger_car_Euro_FC_VOC_raises_IndexError libm_series
           pollutant_FC 50 class_Euro_4 1.6);
    [reflexivity | cbn; tauto | left; reflexivity].
Defined.

(** X6 for an engine of 1.2 l, NOx, class Euro_2, at 50 km/h. *)
Lemma diesel_Euro_small_engine_witness :
  passes_speed_tests 50 = true
  /\ HEFDieselPassengerCar (libm := libm_series) pollutant_NOx 50
       class_Euro_2 1.2
     = Raise (Exception
                (msg_diesel_capacity_lower_1_4 pollutant_NOx class_Euro_2)).
Proof.
  split; [reflexivity | ].
  apply (@diesel_Euro_small_engine libm_series pollutant_NOx 50 class_Euro_2
           1.2); [reflexivity | cbn; tauto | cbn; tauto].
Defined.

(** X7 at 50 km/h, with an engine of 1.2 l. *)
Lemma diesel_Euro_4_CO_witness :
  passes_speed_tests 50 = true
  /\ HEFDieselPassengerCar (libm := libm_series) pollutant_CO 50
       class_Euro_4 1.2
     = return_float
         (17.5e-3
          + 86.42 * series_pow (1 + series_exp ((- (50 + 117.67)) / (-21.99)))
                      (-1)).
Proof.
  split; [reflexivity | ].
  apply (@diesel_Euro_4_CO libm_series 50 1.2). reflexivity.
Defined.

(** X8 for the class ECE_15_03, for HC with Euro_3 and for VOC with
    Euro_6, at 50 km/h. *)
Lemma HEFLightCommercialVehicle_missing_keys_witness :
  (50 =? 0) = false
  /\ HEFLightCommercialVehicle (libm := libm_series) copert_no_line
       pollutant_CO 50 engine_type_diesel class_ECE_15_03 = Raise KeyError
  /\ HEFLightCommercialVehicle (libm := libm_series) copert_no_line
       pollutant_HC 50 engine_type_diesel class_Euro_3 = Raise KeyError
  /\ HEFLightCommercialVehicle (libm := libm_series) copert_no_line
       pollutant_VOC 50 engine_type_diesel class_Euro_6 = Raise KeyError.
Proof.
  split; [reflexivity | ].
  split; [ | split].
  - apply (@HEFLightCommercialVehicle_missing_keys libm_series
             copert_no_line pollutant_CO 50 engine_type_diesel
             class_ECE_15_03 eq_refl).
    left. split; [reflexivity | discriminate].
  - apply (@HEFLightCommercialVehicle_missing_keys libm_series
             copert_no_line pollutant_HC 50 engine_type_diesel
             class_Euro_3 eq_refl).
    right. left. split; reflexivity.
  - apply (@HEFLightCommercialVehicle_missing_keys libm_series
             copert_no_line pollutant_VOC 50 engine_type_diesel
             class_Euro_6 eq_refl).
    right. right. split; reflexivity.
Defined.

(** X9 for LPG, CO and Euro_1 at 50 km/h. *)
Lemma HEFLightCommercialVehicle_other_engine_types_witness :
  (50 =? 0) = false
  /\ (HEFLightCommercialVehicle (libm := libm_series) copert_no_line
        pollutant_CO 50 engine_type_LPG class_Euro_1 = Raise KeyError
      \/ HEFLightCommercialVehicle (libm := libm_series) copert_no_line
           pollutant_CO 50 engine_type_LPG class_Euro_1 = Raise IndexError).
Proof.
  split; [reflexivity | ].
  apply (@HEFLightCommercialVehicle_other_engine_types libm_series
           copert_no_line pollutant_CO 50 engine_type_LPG class_Euro_1
           eq_refl); discriminate.
Defined.

(** X10 for VOC and for a moped. *)
Lemma HEFHeavyDutyVehicle_without_line_witness :
  HEFHeavyDutyVehicle (libm := libm_series) copert_one_line 50
    vehicle_type_bus bus_type_urban_15 class_hdv_Euro_III pollutant_VOC
    hdv_load_50 slope_0 = Raise KeyError
  /\ (HEFHeavyDutyVehicle (libm := libm_series) copert_one_line 50
        vehicle_type_moped hdv_type_rigid_7_5 class_hdv_Euro_III
        pollutant_NOx hdv_load_50 slope_0 = Raise IndexError
      \/ HEFHeavyDutyVehicle (libm := libm_series) copert_one_line 50
           vehicle_type_moped hdv_type_rigid_7_5 class_hdv_Euro_III
           pollutant_NOx hdv_load_50 slope_0 = Raise ValueError).
Proof.
  split.
  - apply (@HEFHeavyDutyVehicle_without_line libm_series copert_one_line 50
             vehicle_type_bus bus_type_urban_15 class_hdv_Euro_III
             pollutant_VOC hdv_load_50 slope_0).
    reflexivity.
  - apply (@HEFHeavyDutyVehicle_without_line libm_series copert_one_line 50
             vehicle_type_moped hdv_type_rigid_7_5 class_hdv_Euro_III
             pollutant_NOx hdv_load_50 slope_0); discriminate.
Defined.

(** X11 on the line of the object with one line, at 100 km/h. *)
Lemma HEFHeavyDutyVehicle_on_line_witness :
  HEFHeavyDutyVehicle (libm := libm_series) copert_one_line 100
    vehicle_type_heavy_duty_vehicle hdv_type_rigid_7_5 class_hdv_Euro_III
    pollutant_NOx hdv_load_50 slope_0
  = return_float (Eq_hdv_7 0.02 0.004 0 0 0 0 0 86).
Proof.
  apply (@HEFHeavyDutyVehicle_on_line libm_series copert_one_line 100
           vehicle_type_heavy_duty_vehicle hdv_type_rigid_7_5
           class_hdv_Euro_III pollutant_NOx hdv_load_50 slope_0 0 1
           0.02 0.004 0 0 0 0 0 6 86 7 eq_refl eq_refl eq_refl).
Defined.

(** X12 for the range [10, 110] and the speed 150 km/h. *)
Lemma clamped_speed_in_range_witness :
  (10 <=? 110) = true
  /\ (10 <=? py_min (py_max 10 150) 110) = true
  /\ (py_min (py_max 10 150) 110 <=? 110) = true.
Proof.
  destruct (clamped_speed_in_range 10 110 150 eq_refl) as (Hlo & Hhi & _).
  split; [reflexivity | split; [exact Hlo | exact Hhi]].
Defined.


(** X14 for the label of Euro IV, alone and followed by a dash. *)
Lemma hdv_tech_of_labels_witness :
  In ("HD Euro IV"%string, class_hdv_Euro_IV) corr_tech
  /\ dict_get corr_tech (hdv_tech_of "HD Euro IV") = Return class_hdv_Euro_IV
  /\ dict_get corr_tech (hdv_tech_of "HD Euro IV - SCR")
     = Return class_hdv_Euro_IV.
Proof.
  assert (Hin : In ("HD Euro IV"%string, class_hdv_Euro_IV) corr_tech)
    by (cbn; tauto).
  destruct (hdv_tech_of_labels "HD Euro IV" class_hdv_Euro_IV Hin)
    as (Halone & Hdash & _).
  split; [exact Hin | ].
  split; [exact Halone | ].
  exact (Hdash eq_refl " SCR"%string).
Defined.

Lemma sample_hdv_fields_clean : Forall clean_field sample_hdv_fields.
Proof.
  repeat constructor.
Qed.

(** X15 on the line of [sample_hdv_fields], read into the array of
    NaN. *)
Lemma read_hdv_line_stores_witness :
  exists (array' : hdv_array) (i k : Z),
    read_hdv_line (conversion := float_of_string_digits) hdv_array_nan
      (line_of_fields sample_hdv_fields) = Return array'
    /\ index_vehicle_type vehicle_type_heavy_duty_vehicle = Some i
    /\ index_pollutant pollutant_NOx = Return k
    /\ array' i (hdv_type_code hdv_type_rigid_7_5)
         (class_hdv_code class_hdv_Euro_III) k (hdv_load_code hdv_load_50)
         (slope_code slope_0)
       = (1, 2, 3, 4, 5, 6, 7, 6, 86, 7).
Proof.
  destruct (@read_hdv_line_stores float_of_string_digits libm_series
              hdv_array_nan "HDV" "Rigid <=7.5 t" "x" "HD Euro III - SCR"
              "NOx" "50" "0%" "x"
              ["1"; "2"; "3"; "4"; "5"; "6"; "7"; "6"; "86"; "7"]%string
              vehicle_type_heavy_duty_vehicle hdv_type_rigid_7_5
              class_hdv_Euro_III pollutant_NOx hdv_load_50 slope_0
              1 2 3 4 5 6 7 6 86 7
              sample_hdv_fields_clean ltac:(discriminate)
              eq_refl eq_refl eq_refl eq_refl eq_refl eq_refl eq_refl)
    as (array' & i & k & Hread & Hi & Hk & Hline & _).
  exists array', i, k. auto.
Defined.


(** X17 for a bus on the object built from the titles alone. *)
Lemma constructor_without_data_witness :
  __init__ (conversion := float_of_string_digits)
    ["Sector,Type,Pollutant"%string] ["Type,Load,Slope"%string]
  = Return copert_no_line
  /\ HEFHeavyDutyVehicle (libm := libm_series) copert_no_line 50
       vehicle_type_bus bus_type_urban_15 class_hdv_Euro_III pollutant_NOx
       hdv_load_50 slope_0
     = Raise (Exception msg_hdv_no_formula).
Proof.
  destruct (@constructor_without_data float_of_string_digits libm_series
              "Type,Pollutant" "Load,Slope") as (Hinit & _ & Hcall).
  split; [exact Hinit | ].
  apply Hcall; [right; reflexivity | discriminate].
Defined.

(** X18 for a gasoline and a diesel car of class PRE_ECE with HC. *)
Lemma Emission_raises_TypeError_witness :
  passes_speed_tests 50 = true
  /\ Emission (libm := libm_series) copert_no_line pollutant_HC 50 2
       vehicle_type_passenger_car engine_type_gasoline class_PRE_ECE 1.0 20
     = Raise TypeError
  /\ Emission (libm := libm_series) copert_no_line pollutant_HC 50 2
       vehicle_type_passenger_car engine_type_diesel class_PRE_ECE 1.0 20
     = Raise TypeError.
Proof.
  destruct (@Emission_raises_TypeError libm_series copert_no_line
              pollutant_HC 50 2 class_PRE_ECE 1.0 20 eq_refl eq_refl)
    as [Hg Hd].
  split; [reflexivity | ].
  split; [apply Hg; [reflexivity | left; reflexivity] | apply Hd; reflexivity].
Defined.

(** X19 for a file whose last line is empty. *)
Lemma constructor_blank_line_witness :
  read_ldv_line (conversion := float_of_string_digits) ldv_array_nan
    (String (ascii_of_nat 10) EmptyString) = Raise IndexError
  /\ exists e : exn,
       __init__ (conversion := float_of_string_digits)
         [line_of_fields sample_ldv_fields;
          String (ascii_of_nat 10) EmptyString] []
       = Raise e.
Proof.
  destruct (@constructor_blank_line float_of_string_digits
              (String (ascii_of_nat 10) EmptyString) eq_refl eq_refl)
    as (Hl & _ & Hinit).
  split; [apply Hl | ].
  apply Hinit. cbn. tauto.
Defined.
